(** * Valetudo control card: the input-to-command control loop

    A shallow embedding of [dist/valetudo-control-card.js]
    (class [ValetudoControlCard]) and the properties of its joystick
    shaper, its command dispatcher [_sendCommand] and its manual-control
    reconciliation.

    Numbers.  JavaScript numbers are IEEE doubles; the embedding works over
    exact rationals [Q], with [NaN] kept apart as its own constructor because
    the dispatcher tests for it.  Infinities are not represented.  Every
    concrete input used below is a short decimal on which the double
    computation and the exact one take the same branches.  Two rounded
    values whose exact difference is one epsilon can differ by more on
    doubles (0.52 - 0.5 exceeds 0.02): where a statement rests on such a
    comparison it asks for a difference below the epsilon, or has 0 on one
    side, where the subtraction is exact.

    Effects.  The only effect of the card that matters here is
    [this.hass.callService(domain, service, data)].  Every handler returns the
    new card together with the list of service calls it issued, in order.
    What a call does (throw, or hand back a promise and how that promise
    settles) is an input of the handler.  Handlers run to completion: an
    [async] method is taken with its awaited calls settled in sequence. *)

From Stdlib Require Import QArith Qround Qabs ZArith Bool List String Lia Lqa.
Import ListNotations.

Open Scope Q_scope.

(** ** JavaScript numbers and the [Math] functions the card uses *)

Module Js.

(** A JavaScript number: not-a-number, or a finite value. *)
Inductive number : Type :=
| NaN : number
| Num (q : Q) : number.

(** [a < b], [a > b], [a >= b] and [a === b] on finite numbers. *)
Definition lt (a b : Q) : bool := negb (Qle_bool b a).
Definition gt (a b : Q) : bool := lt b a.
Definition eq (a b : Q) : bool := Qeq_bool a b.

(** [Math.abs], [Math.max], [Math.min]. *)
Definition abs (a : Q) : Q := Qabs a.
Definition max (a b : Q) : Q := if lt a b then b else a.
Definition min (a b : Q) : Q := if lt b a then b else a.

(** [Math.round]: the nearest integer, halves going up. *)
Definition round (a : Q) : Z := Qfloor (a + (1 # 2)).

(** [slot === null] and [slot === v] on a slot that holds [null] or a
    number. *)
Definition is_null {A} (o : option A) : bool :=
  match o with None => true | Some _ => false end.
Definition opt_eq (o : option Q) (v : Q) : bool :=
  match o with None => false | Some x => eq x v end.

(** [s.startsWith(p)], [s.includes(sub)], and the truthiness of a string. *)
Definition startsWith (s p : string) : bool := String.prefix p s.

Fixpoint includes (s sub : string) : bool :=
  if String.prefix sub s then true
  else match s with
       | EmptyString => false
       | String _ rest => includes rest sub
       end.

Definition truthy (s : string) : bool :=
  match s with EmptyString => false | String _ _ => true end.

End Js.

(** [Math.atan2], [Math.sqrt] and [Math.PI] have no exact rational
    counterpart: the shaper is written against this interface, and what is
    proved about it holds for every implementation. *)
Class Math : Type := {
  atan2 : Q -> Q -> Q;
  sqrt : Q -> Q;
  PI : Q
}.

(** ** The host context *)

(** An entry of [hass.states]: its [state] string and
    [attributes?.friendly_name] ([None] when either is missing). *)
Record Entity : Type := {
  state : string;
  friendly_name : option string
}.

(** [hass.states], in the enumeration order of [Object.entries]. *)
Record Hass : Type := {
  states : list (string * Entity)
}.

Record Config : Type := {
  entity : string;
  debug_mode : bool
}.

(** A call [hass.callService('valetudo_control', service, data)]. *)
Inductive ServiceCall : Type :=
| send_command (velocity angle : Q)
| set_manual_control_state (enable : bool)
| set_water_usage_preset (preset : string)
| dock
| play_sound.

(** How the promise returned by [callService] settles. *)
Inductive Settlement : Type := Fulfilled | Rejected.

(** What one [callService] invocation does at the call site: throw
    synchronously, or return a promise. *)
Inductive Outcome : Type :=
| Throws
| Returns (p : Settlement).

(** What a handler reads from its surroundings while it runs:
    [new Date().getTime()] and the behaviour of the service call. *)
Record Tick : Type := {
  now : Z;
  callService : Outcome
}.

(** ** The card *)

(** [this._lastSent] *)
Record LastSent : Type := {
  angle : option Q;
  velocity : option Q
}.

(** The fields of a [ValetudoControlCard] instance.  A timer handle is
    modelled by the period it was started with.  [this._isDragging] is
    [undefined] until the first drag, which is falsy like [false]. *)
Record ValetudoControlCard : Type := {
  hass : option Hass;
  config : option Config;
  _velocity : Q;
  _angle : Q;
  _isConnected : bool;
  _isManualControlEnabled : bool;
  _isManualControlStateKnown : bool;
  _isTogglingManualControl : bool;
  _lastWaterUsagePreset : option string;
  _commandInterval : option Z;
  _lastSent : LastSent;
  _lastSendTime : Z;
  _pollingInterval : option Z;
  _debugMode : bool;
  _isDragging : bool
}.

(** Set once in the constructor and never assigned again. *)
Definition speed : Q := 1.
Definition deadzone : Q := 15 # 100.
Definition angleEpsilon : Q := 3.
Definition velocityEpsilon : Q := 2 # 100.
Definition _commandIntervalMs : Z := 250.
Definition _pollingIntervalMs : Z := 5000.

Definition constructor : ValetudoControlCard := {|
  hass := None;
  config := None;
  _velocity := 0;
  _angle := 0;
  _isConnected := false;
  _isManualControlEnabled := false;
  _isManualControlStateKnown := false;
  _isTogglingManualControl := false;
  _lastWaterUsagePreset := None;
  _commandInterval := None;
  _lastSent := {| angle := None; velocity := None |};
  _lastSendTime := 0;
  _pollingInterval := None;
  _debugMode := false;
  _isDragging := false
|}.

(** Field assignments. *)
Definition set_hass (h : option Hass) (s : ValetudoControlCard) :=
  {| hass := h; config := config s; _velocity := _velocity s;
     _angle := _angle s; _isConnected := _isConnected s;
     _isManualControlEnabled := _isManualControlEnabled s;
     _isManualControlStateKnown := _isManualControlStateKnown s;
     _isTogglingManualControl := _isTogglingManualControl s;
     _lastWaterUsagePreset := _lastWaterUsagePreset s;
     _commandInterval := _commandInterval s; _lastSent := _lastSent s;
     _lastSendTime := _lastSendTime s;
     _pollingInterval := _pollingInterval s; _debugMode := _debugMode s;
     _isDragging := _isDragging s |}.

Definition set_config (c : option Config) (dbg : bool)
  (s : ValetudoControlCard) :=
  {| hass := hass s; config := c; _velocity := _velocity s;
     _angle := _angle s; _isConnected := _isConnected s;
     _isManualControlEnabled := _isManualControlEnabled s;
     _isManualControlStateKnown := _isManualControlStateKnown s;
     _isTogglingManualControl := _isTogglingManualControl s;
     _lastWaterUsagePreset := _lastWaterUsagePreset s;
     _commandInterval := _commandInterval s; _lastSent := _lastSent s;
     _lastSendTime := _lastSendTime s;
     _pollingInterval := _pollingInterval s; _debugMode := dbg;
     _isDragging := _isDragging s |}.

Definition set_vector (v a : Q) (s : ValetudoControlCard) :=
  {| hass := hass s; config := config s; _velocity := v;
     _angle := a; _isConnected := _isConnected s;
     _isManualControlEnabled := _isManualControlEnabled s;
     _isManualControlStateKnown := _isManualControlStateKnown s;
     _isTogglingManualControl := _isTogglingManualControl s;
     _lastWaterUsagePreset := _lastWaterUsagePreset s;
     _commandInterval := _commandInterval s; _lastSent := _lastSent s;
     _lastSendTime := _lastSendTime s;
     _pollingInterval := _pollingInterval s; _debugMode := _debugMode s;
     _isDragging := _isDragging s |}.

Definition set_isConnected (b : bool) (s : ValetudoControlCard) :=
  {| hass := hass s; config := config s; _velocity := _velocity s;
     _angle := _angle s; _isConnected := b;
     _isManualControlEnabled := _isManualControlEnabled s;
     _isManualControlStateKnown := _isManualControlStateKnown s;
     _isTogglingManualControl := _isTogglingManualControl s;
     _lastWaterUsagePreset := _lastWaterUsagePreset s;
     _commandInterval := _commandInterval s; _lastSent := _lastSent s;
     _lastSendTime := _lastSendTime s;
     _pollingInterval := _pollingInterval s; _debugMode := _debugMode s;
     _isDragging := _isDragging s |}.

(** [this._isManualControlEnabled = b; this._isManualControlStateKnown = true] *)
Definition set_manualControl (b : bool) (s : ValetudoControlCard) :=
  {| hass := hass s; config := config s; _velocity := _velocity s;
     _angle := _angle s; _isConnected := _isConnected s;
     _isManualControlEnabled := b;
     _isManualControlStateKnown := true;
     _isTogglingManualControl := _isTogglingManualControl s;
     _lastWaterUsagePreset := _lastWaterUsagePreset s;
     _commandInterval := _commandInterval s; _lastSent := _lastSent s;
     _lastSendTime := _lastSendTime s;
     _pollingInterval := _pollingInterval s; _debugMode := _debugMode s;
     _isDragging := _isDragging s |}.

Definition set_toggling (b : bool) (s : ValetudoControlCard) :=
  {| hass := hass s; config := config s; _velocity := _velocity s;
     _angle := _angle s; _isConnected := _isConnected s;
     _isManualControlEnabled := _isManualControlEnabled s;
     _isManualControlStateKnown := _isManualControlStateKnown s;
     _isTogglingManualControl := b;
     _lastWaterUsagePreset := _lastWaterUsagePreset s;
     _commandInterval := _commandInterval s; _lastSent := _lastSent s;
     _lastSendTime := _lastSendTime s;
     _pollingInterval := _pollingInterval s; _debugMode := _debugMode s;
     _isDragging := _isDragging s |}.

Definition set_lastWaterUsagePreset (p : option string)
  (s : ValetudoControlCard) :=
  {| hass := hass s; config := config s; _velocity := _velocity s;
     _angle := _angle s; _isConnected := _isConnected s;
     _isManualControlEnabled := _isManualControlEnabled s;
     _isManualControlStateKnown := _isManualControlStateKnown s;
     _isTogglingManualControl := _isTogglingManualControl s;
     _lastWaterUsagePreset := p;
     _commandInterval := _commandInterval s; _lastSent := _lastSent s;
     _lastSendTime := _lastSendTime s;
     _pollingInterval := _pollingInterval s; _debugMode := _debugMode s;
     _isDragging := _isDragging s |}.

Definition set_commandInterval (t : option Z) (s : ValetudoControlCard) :=
  {| hass := hass s; config := config s; _velocity := _velocity s;
     _angle := _angle s; _isConnected := _isConnected s;
     _isManualControlEnabled := _isManualControlEnabled s;
     _isManualControlStateKnown := _isManualControlStateKnown s;
     _isTogglingManualControl := _isTogglingManualControl s;
     _lastWaterUsagePreset := _lastWaterUsagePreset s;
     _commandInterval := t; _lastSent := _lastSent s;
     _lastSendTime := _lastSendTime s;
     _pollingInterval := _pollingInterval s; _debugMode := _debugMode s;
     _isDragging := _isDragging s |}.

(** [this._lastSent = { angle, velocity }; this._lastSendTime = t] *)
Definition set_lastSent (a v : Q) (t : Z) (s : ValetudoControlCard) :=
  {| hass := hass s; config := config s; _velocity := _velocity s;
     _angle := _angle s; _isConnected := _isConnected s;
     _isManualControlEnabled := _isManualControlEnabled s;
     _isManualControlStateKnown := _isManualControlStateKnown s;
     _isTogglingManualControl := _isTogglingManualControl s;
     _lastWaterUsagePreset := _lastWaterUsagePreset s;
     _commandInterval := _commandInterval s;
     _lastSent := {| angle := Some a; velocity := Some v |};
     _lastSendTime := t;
     _pollingInterval := _pollingInterval s; _debugMode := _debugMode s;
     _isDragging := _isDragging s |}.

Definition set_pollingInterval (t : option Z) (s : ValetudoControlCard) :=
  {| hass := hass s; config := config s; _velocity := _velocity s;
     _angle := _angle s; _isConnected := _isConnected s;
     _isManualControlEnabled := _isManualControlEnabled s;
     _isManualControlStateKnown := _isManualControlStateKnown s;
     _isTogglingManualControl := _isTogglingManualControl s;
     _lastWaterUsagePreset := _lastWaterUsagePreset s;
     _commandInterval := _commandInterval s; _lastSent := _lastSent s;
     _lastSendTime := _lastSendTime s;
     _pollingInterval := t; _debugMode := _debugMode s;
     _isDragging := _isDragging s |}.

Definition set_isDragging (b : bool) (s : ValetudoControlCard) :=
  {| hass := hass s; config := config s; _velocity := _velocity s;
     _angle := _angle s; _isConnected := _isConnected s;
     _isManualControlEnabled := _isManualControlEnabled s;
     _isManualControlStateKnown := _isManualControlStateKnown s;
     _isTogglingManualControl := _isTogglingManualControl s;
     _lastWaterUsagePreset := _lastWaterUsagePreset s;
     _commandInterval := _commandInterval s; _lastSent := _lastSent s;
     _lastSendTime := _lastSendTime s;
     _pollingInterval := _pollingInterval s; _debugMode := _debugMode s;
     _isDragging := b |}.

(** ** Vector shaper: [_normalizeAxisValue], [_calculateMovement] *)

Section Shaper.

Context {M : Math}.

Definition normalizeAxisValue (value : Q) : Q :=
  Js.max 0 (value - deadzone) / (1 - deadzone).

(** [_calculateMovement(xAxis, yAxis)]: the card with [_velocity] and
    [_angle] reassigned. *)
Definition calculateMovement (s : ValetudoControlCard) (xAxis yAxis : Q)
  : ValetudoControlCard :=
  let absX := Js.abs xAxis in
  let absY := Js.abs yAxis in
  let maxSpeed := speed in
  (* Deadzone - No movement *)
  if Js.lt absX deadzone && Js.lt absY deadzone then
    set_vector 0 0 s
  (* Mostly vertical movement *)
  else if Js.gt absY deadzone && Js.lt absX (deadzone * (15 # 10)) then
    let vel := normalizeAxisValue absY * maxSpeed in
    let v := if Js.gt yAxis 0 then vel else - vel in
    let v := Js.max (-1) (Js.min 1 v) in
    set_vector v 0 s
  (* Mostly horizontal movement - pure rotation *)
  else if Js.gt absX deadzone && Js.lt absY (deadzone * (15 # 10)) then
    set_vector 0 (if Js.gt xAxis 0 then 90 else -90) s
  (* Combined movement - both velocity and angle *)
  else
    let correctedX := if Js.lt yAxis 0 then - xAxis else xAxis in
    let a := (atan2 correctedX yAxis * 180) / PI in
    let magnitude := sqrt (xAxis * xAxis + yAxis * yAxis) in
    let vel := normalizeAxisValue magnitude * maxSpeed in
    let v := if Js.gt yAxis 0 then vel else - vel in
    let v := Js.max (-1) (Js.min 1 v) in
    set_vector v a s.

(** The tail of [_updateJoystickPosition(e)], from "Apply deadzone" on.
    The DOM part before it (bounding rectangle, pointer coordinates, clamping
    to the circle) is taken as computed: [area] tells whether the joystick
    elements were found, [normalizedX] and [normalizedY] are the normalized
    axes. *)
Definition updateJoystickPosition (s : ValetudoControlCard) (area : bool)
  (normalizedX normalizedY : Q) : ValetudoControlCard :=
  if negb area then s
  else
    let absX := Js.abs normalizedX in
    let absY := Js.abs normalizedY in
    if Js.lt absX deadzone && Js.lt absY deadzone then set_vector 0 0 s
    else calculateMovement s normalizedX normalizedY.

End Shaper.

(** ** Command dispatcher: [_sendCommand] *)

(** The three steps [_sendCommand] applies to the velocity, and the one it
    applies to the angle, before any comparison. *)
Definition clampVelocity (v : Q) : Q := Js.max (-1) (Js.min 1 v).
Definition roundVelocity (v : Q) : Q := inject_Z (Js.round (v * 1000)) / 1000.
Definition roundAngle (a : Q) : Q := inject_Z (Js.round (a * 10)) / 10.
Definition filterVelocity (v : Q) : Q :=
  if Js.lt (Js.abs v) velocityEpsilon then 0 else v.

(** [numVelocity] and [numAngle] as they stand after the filter. *)
Definition sentVelocity (v : Q) : Q :=
  filterVelocity (roundVelocity (clampVelocity v)).
Definition sentAngle (a : Q) : Q := roundAngle a.

(** [_sendCommand(velocity, angle)] *)
Definition sendCommand (s : ValetudoControlCard) (vel ang : Js.number)
  (w : Tick) : ValetudoControlCard * list ServiceCall :=
  match hass s with
  | None => (s, [])
  | Some _ =>
    (* Only send commands if manual control is enabled *)
    if negb (_isManualControlEnabled s) then (s, [])
    else
      match vel, ang with
      | Js.Num v, Js.Num a =>
        let numVelocity := clampVelocity v in
        let numVelocity := roundVelocity numVelocity in
        let numAngle := roundAngle a in
        let numVelocity := filterVelocity numVelocity in
        let currentTime := now w in
        let timeSinceLastSend := (currentTime - _lastSendTime s)%Z in
        let angleChanged :=
          match angle (_lastSent s) with
          | None => true
          | Some la => Js.gt (Js.abs (numAngle - la)) angleEpsilon
          end in
        let velocityChanged :=
          match velocity (_lastSent s) with
          | None => true
          | Some lv => Js.gt (Js.abs (numVelocity - lv)) velocityEpsilon
          end in
        let shouldSend :=
          Js.is_null (angle (_lastSent s))
          || (timeSinceLastSend >=? _commandIntervalMs)%Z
          || angleChanged
          || velocityChanged in
        if Js.eq numVelocity 0 && Js.opt_eq (velocity (_lastSent s)) 0
           && negb angleChanged && Js.eq numAngle 0
        then (s, [])
        else if negb shouldSend then (s, [])
        else
          let serviceData := send_command numVelocity numAngle in
          match callService w with
          | Throws => (s, [serviceData])
          | Returns _ =>
            (set_lastSent numAngle numVelocity currentTime s, [serviceData])
          end
      (* isNaN(numVelocity) || isNaN(numAngle) *)
      | _, _ => (s, [])
      end
  end.

(** ** Joystick surface: reset, release, property updates *)

(** [_resetJoystick(sendStopCommand = true)].  The style assignments on the
    handle element leave the card's fields alone and are omitted. *)
Definition resetJoystick (s : ValetudoControlCard) (sendStopCommand : bool)
  (w : Tick) : ValetudoControlCard * list ServiceCall :=
  let s := if negb (_isDragging s) then set_vector 0 0 s else s in
  if sendStopCommand then sendCommand s (Js.Num 0) (Js.Num 0) w
  else (s, []).

(** [_sendStopCommand()] *)
Definition sendStopCommand (s : ValetudoControlCard) (w : Tick)
  : ValetudoControlCard * list ServiceCall :=
  sendCommand s (Js.Num 0) (Js.Num 0) w.

(** [if (this._commandInterval) { clearInterval(...); this._commandInterval = null; }] *)
Definition clearCommandInterval (s : ValetudoControlCard)
  : ValetudoControlCard :=
  match _commandInterval s with
  | Some _ => set_commandInterval None s
  | None => s
  end.

(** [_handleJoystickEnd(e)].  Removing the document listeners is omitted. *)
Definition handleJoystickEnd (s : ValetudoControlCard) (w : Tick)
  : ValetudoControlCard * list ServiceCall :=
  if negb (_isDragging s) then (s, [])
  else
    let s := set_isDragging false s in
    let s := clearCommandInterval s in
    resetJoystick s true w.

(** The reactive properties [updated(changedProperties)] asks about. *)
Inductive Property : Type :=
| P_velocity
| P_angle
| P_isConnected
| P_isManualControlEnabled
| P_config.

Definition Property_eqb (p q : Property) : bool :=
  match p, q with
  | P_velocity, P_velocity | P_angle, P_angle
  | P_isConnected, P_isConnected
  | P_isManualControlEnabled, P_isManualControlEnabled
  | P_config, P_config => true
  | _, _ => false
  end.

(** [changedProperties.has(p)] *)
Definition has (changedProperties : list Property) (p : Property) : bool :=
  existsb (Property_eqb p) changedProperties.

(** [updated(changedProperties)]; [w1] serves the reset of the first block,
    [w2] the one at the end. *)
Definition updated (s : ValetudoControlCard)
  (changedProperties : list Property) (w1 w2 : Tick)
  : ValetudoControlCard * list ServiceCall :=
  let '(s, calls1) :=
    if has changedProperties P_isManualControlEnabled
       && (negb (_isManualControlEnabled s) && _isDragging s)
    then
      let s := set_isDragging false s in
      let s := clearCommandInterval s in
      resetJoystick s true w1
    else (s, []) in
  if _isDragging s then (s, calls1)
  else
    let shouldResetJoystick :=
      (has changedProperties P_isManualControlEnabled
         && negb (_isManualControlEnabled s))
      || (has changedProperties P_isManualControlEnabled
            && _isManualControlEnabled s)
      || (has changedProperties P_velocity || has changedProperties P_angle)
      || has changedProperties P_config
      || has changedProperties P_isConnected in
    if shouldResetJoystick then
      let '(s, calls2) := resetJoystick s true w2 in
      (s, calls1 ++ calls2)
    else (s, calls1).

(** The callback of the resend interval started by a drag. *)
Definition commandTick (s : ValetudoControlCard) (w : Tick)
  : ValetudoControlCard * list ServiceCall :=
  sendCommand s (Js.Num (_velocity s)) (Js.Num (_angle s)) w.

(** The [setTimeout] callback of [_handleJoystickStart]: it starts the
    resend interval. *)
Definition startCommandInterval (s : ValetudoControlCard)
  : ValetudoControlCard :=
  set_commandInterval (Some _commandIntervalMs) s.

Section Surface.

Context {M : Math}.

(** [_handleJoystickStart(e)], with the DOM part of
    [_updateJoystickPosition] taken as computed (see there).  Listener
    registration is omitted; the interval is started later by
    [startCommandInterval]. *)
Definition handleJoystickStart (s : ValetudoControlCard) (area : bool)
  (normalizedX normalizedY : Q) (w : Tick)
  : ValetudoControlCard * list ServiceCall :=
  if negb (_isManualControlEnabled s) then (s, [])
  else
    let s := set_isDragging true s in
    let s := updateJoystickPosition s area normalizedX normalizedY in
    sendCommand s (Js.Num (_velocity s)) (Js.Num (_angle s)) w.

(** [_handleJoystickMove(e)] *)
Definition handleJoystickMove (s : ValetudoControlCard) (area : bool)
  (normalizedX normalizedY : Q) : ValetudoControlCard :=
  if negb (_isDragging s) then s
  else updateJoystickPosition s area normalizedX normalizedY.

End Surface.

(** ** Manual-control reconciliation *)

(** The test both discovery loops apply to an entry of [hass.states]. *)
Definition isManualControlSwitch (entry : string * Entity) : bool :=
  let '(entityId, e) := entry in
  Js.startsWith entityId "switch."
  && (Js.includes entityId "_manual_control"
      || Js.includes entityId "manual_control_"
      || match friendly_name e with
         | Some n => Js.truthy n && Js.includes n "Manual Control"
         | None => false
         end).

(** The loop over [Object.entries(this.hass.states)]: the first matching
    entry, if any. *)
Definition findSwitchEntity (h : Hass) : option Entity :=
  option_map snd (find isManualControlSwitch (states h)).

(** [!this.hass || !this.config || !this.config.entity] is false: the host
    context when the card is ready. *)
Definition ready (s : ValetudoControlCard) : option Hass :=
  match hass s, config s with
  | Some h, Some c => if Js.truthy (entity c) then Some h else None
  | _, _ => None
  end.

(** [switchEntity.state === 'on'] *)
Definition isOn (e : Entity) : bool := String.eqb (state e) "on".

(** [_initializeManualControlState()] *)
Definition initializeManualControlState (s : ValetudoControlCard)
  : ValetudoControlCard :=
  match ready s with
  | None => s
  | Some h =>
    match findSwitchEntity h with
    | Some switchEntity =>
      let manualControlState := isOn switchEntity in
      if negb (Bool.eqb (_isManualControlEnabled s) manualControlState)
      then set_manualControl manualControlState s
      else s
    | None => s
    end
  end.

(** [_findAndSetManualControlState()] *)
Definition findAndSetManualControlState (s : ValetudoControlCard)
  : ValetudoControlCard :=
  match ready s with
  | None => s
  | Some h =>
    match findSwitchEntity h with
    | Some switchEntity =>
      let manualControlState := isOn switchEntity in
      if negb (Bool.eqb (_isManualControlEnabled s) manualControlState)
      then set_toggling false (set_manualControl manualControlState s)
      else if _isTogglingManualControl s then set_toggling false s
      else s
    | None => initializeManualControlState s
    end
  end.

(** The callback of the polling interval set up by [_startPolling()]. *)
Definition pollTick (s : ValetudoControlCard) : ValetudoControlCard :=
  match ready s with
  | None => s
  | Some _ => findAndSetManualControlState s
  end.

(** [_startPolling()] *)
Definition startPolling (s : ValetudoControlCard) : ValetudoControlCard :=
  set_pollingInterval (Some 5000%Z) s.

(** [_getWaterUsagePreset()]: [undefined] without a host context, ['off']
    otherwise. *)
Definition getWaterUsagePreset (s : ValetudoControlCard) : option string :=
  match hass s with
  | None => None
  | Some _ => Some "off"%string
  end.

(** [_setWaterUsagePreset(preset)]: the call it issues; a failure is caught
    inside. *)
Definition setWaterUsagePreset (s : ValetudoControlCard) (preset : string)
  : list ServiceCall :=
  match hass s with
  | None => []
  | Some _ => [set_water_usage_preset preset]
  end.

(** [_toggleManualControl()]; [r] is what the awaited
    [set_manual_control_state] call does. *)
Definition toggleManualControl (s : ValetudoControlCard) (r : Outcome)
  : ValetudoControlCard * list ServiceCall :=
  match hass s with
  | None => (s, [])
  | Some _ =>
    let s := set_toggling true s in
    let desiredState := negb (_isManualControlEnabled s) in
    let '(s, calls1) :=
      if desiredState then
        let s := set_lastWaterUsagePreset (getWaterUsagePreset s) s in
        (s, setWaterUsagePreset s "off")
      else (s, []) in
    let calls2 := [set_manual_control_state desiredState] in
    match r with
    | Returns Fulfilled =>
      let calls3 :=
        match _lastWaterUsagePreset s with
        | Some p =>
          if negb desiredState && Js.truthy p then setWaterUsagePreset s p
          else []
        | None => []
        end in
      (s, calls1 ++ calls2 ++ calls3)
    | _ => (s, calls1 ++ calls2)
    end
  end.

(** [_dock()] and [_playSound()] *)
Definition dockRobot (s : ValetudoControlCard) : list ServiceCall :=
  match hass s with None => [] | Some _ => [dock] end.

Definition playSound (s : ValetudoControlCard) : list ServiceCall :=
  match hass s with None => [] | Some _ => [play_sound] end.

(** ** The toggle button *)




(** ** Mounting and unmounting *)

(** [connectedCallback()]; the delayed [_resetJoystick(false)] is the
    separate step [resetJoystick s false]. *)
Definition connectedCallback (s : ValetudoControlCard)
  : ValetudoControlCard :=
  let s := set_isConnected true s in
  let s := initializeManualControlState s in
  startPolling s.

(** [disconnectedCallback()] *)
Definition disconnectedCallback (s : ValetudoControlCard) (w1 w2 : Tick)
  : ValetudoControlCard * list ServiceCall :=
  let s := set_isConnected false s in
  let s := clearCommandInterval s in
  let s := match _pollingInterval s with
           | Some _ => set_pollingInterval None s
           | None => s
           end in
  let '(s, calls1) := resetJoystick s true w1 in
  let '(s, calls2) := sendStopCommand s w2 in
  (s, calls1 ++ calls2).

(** ** The reconciler's three states *)

(** The state machine the specification speaks of. *)
Inductive ManualControlState : Type :=
| Disabled
| Enabled
| PendingToggle (target : bool).

(** How the card's two flags read as such a state: a toggle is pending while
    [_isTogglingManualControl] is set, and it aims at the negation of the
    last known [_isManualControlEnabled]. *)
Definition reconcilerState (s : ValetudoControlCard) : ManualControlState :=
  if _isTogglingManualControl s
  then PendingToggle (negb (_isManualControlEnabled s))
  else if _isManualControlEnabled s then Enabled else Disabled.

(** The [send_command] payloads among the calls a handler issued. *)
Definition transmissions (calls : list ServiceCall) : list (Q * Q) :=
  flat_map (fun c => match c with
                     | send_command v a => [(v, a)]
                     | _ => []
                     end) calls.

(** ** Cards used as concrete inputs *)

(** A host context with the robot's manual-control switch reported off, and
    one with it reported on. *)
Definition hostOff : Hass :=
  {| states :=
       [("sensor.robot_battery"%string,
         {| state := "87"; friendly_name := Some "Robot Battery"%string |});
        ("switch.robot_manual_control"%string,
         {| state := "off"; friendly_name := None |})] |}.

Definition hostOn : Hass :=
  {| states :=
       [("sensor.robot_battery"%string,
         {| state := "87"; friendly_name := Some "Robot Battery"%string |});
        ("switch.robot_manual_control"%string,
         {| state := "on"; friendly_name := None |})] |}.

Definition cardConfig : Config :=
  {| entity := "sensor.robot_battery"; debug_mode := false |}.

(** A freshly constructed card that was configured and mounted while the
    switch was off, respectively on. *)
Definition mountedOff : ValetudoControlCard :=
  connectedCallback
    (set_config (Some cardConfig) false (set_hass (Some hostOff) constructor)).

Definition mountedOn : ValetudoControlCard :=
  connectedCallback
    (set_config (Some cardConfig) false (set_hass (Some hostOn) constructor)).

(** A service call that returns a promise which fulfils, at time [t]; one
    whose promise rejects; one that throws. *)
Definition fulfils (t : Z) : Tick :=
  {| now := t; callService := Returns Fulfilled |}.
Definition rejects (t : Z) : Tick :=
  {| now := t; callService := Returns Rejected |}.
Definition throws (t : Z) : Tick :=
  {| now := t; callService := Throws |}.

(** An implementation of [Math] for evaluating the shaper on inputs of its
    first three branches, where none of its members is read
    (see [calculateMovement_lanes_any_math]). *)
Definition unreadMath : Math :=
  {| atan2 := fun _ _ => 0; sqrt := fun _ => 0; PI := 1 |}.

(** ** Configuration and the remaining lifecycle hooks *)

(** [setConfig(config)].  [entity] is [None] when the object has no
    [entity] key; [debug_mode] is [config.debug_mode || false].  [None] as a
    result stands for the thrown [Error]. *)
Definition setConfig (s : ValetudoControlCard) (entity : option string)
  (debug_mode : bool) : option ValetudoControlCard :=
  match entity with
  | Some e =>
    if negb (Js.truthy e) then None
    else Some (set_config (Some {| entity := e; debug_mode := debug_mode |})
                 debug_mode s)
  | None => None
  end.

(** The [setTimeout] callback of [firstUpdated()] and of
    [connectedCallback()]: [_resetJoystick(false)]. *)
Definition firstUpdated (s : ValetudoControlCard) (w : Tick)
  : ValetudoControlCard * list ServiceCall :=
  resetJoystick s false w.

(** ** Predicates used in the statements *)

(** The cache is either empty, or holds an angle that is a whole number of
    tenths together with a velocity that is a whole number of thousandths in
    [[-1, 1]] and is 0 or at least the velocity epsilon in absolute value. *)
Definition cacheWellFormed (c : LastSent) : Prop :=
  match angle c, velocity c with
  | None, None => True
  | Some la, Some lv =>
    (exists k : Z, la == inject_Z k / 10)
    /\ (exists k : Z, lv == inject_Z k / 1000)
    /\ -1 <= lv <= 1
    /\ (lv == 0 \/ velocityEpsilon <= Qabs lv)
  | _, _ => False
  end.

(** One step of the cache: it stays as it was, or is filled with a
    processed vector. *)
Definition cacheStep (c c' : LastSent) : Prop :=
  c' = c
  \/ exists v a, c' = {| angle := Some (sentAngle a);
                         velocity := Some (sentVelocity v) |}.

(** The stop command as it appears on the wire. *)
Definition stopCommand : ServiceCall := send_command 0 (0 # 10).

(** ** The lanes of the shaper *)

(** The translation lane and the rotation lane, with the comparisons the
    shaper makes. *)
Definition translationLane (x y : Q) : Prop :=
  deadzone < Qabs y /\ Qabs x < deadzone * (15 # 10).

Definition rotationLane (x y : Q) : Prop :=
  deadzone < Qabs x /\ Qabs y < deadzone * (15 # 10).

(** * Properties *)

(** ** Comparisons, [Math.max], [Math.min] and [Math.round] *)

Lemma lt_spec a b : Js.lt a b = true <-> a < b.
Proof.
  unfold Js.lt. rewrite negb_true_iff. split; intro H.
  - apply Qnot_le_lt. intro L. apply Qle_bool_iff in L. congruence.
  - destruct (Qle_bool b a) eqn:E; [|reflexivity].
    apply Qle_bool_iff in E. lra.
Qed.

Lemma lt_false a b : Js.lt a b = false <-> b <= a.
Proof. unfold Js.lt. rewrite negb_false_iff. apply Qle_bool_iff. Qed.

Lemma gt_spec a b : Js.gt a b = true <-> b < a.
Proof. apply lt_spec. Qed.

Lemma gt_false a b : Js.gt a b = false <-> a <= b.
Proof. apply lt_false. Qed.

Lemma eq_spec a b : Js.eq a b = true <-> a == b.
Proof. apply Qeq_bool_iff. Qed.

Lemma eq_false a b : Js.eq a b = false <-> ~ a == b.
Proof.
  rewrite <- eq_spec. destruct (Js.eq a b); split; intro H;
    (reflexivity || discriminate || tauto || congruence).
Qed.

Lemma max_spec a b :
  (a < b /\ Js.max a b = b) \/ (b <= a /\ Js.max a b = a).
Proof.
  unfold Js.max. destruct (Js.lt a b) eqn:E.
  - left. split; [now apply lt_spec|reflexivity].
  - right. split; [now apply lt_false|reflexivity].
Qed.

Lemma min_spec a b :
  (b < a /\ Js.min a b = b) \/ (a <= b /\ Js.min a b = a).
Proof.
  unfold Js.min. destruct (Js.lt b a) eqn:E.
  - left. split; [now apply lt_spec|reflexivity].
  - right. split; [now apply lt_false|reflexivity].
Qed.

(** [Math.round] respects integer bounds of its argument. *)
Lemma round_le_int (a : Q) (n : Z) : a <= inject_Z n -> (Js.round a <= n)%Z.
Proof.
  intro H. unfold Js.round.
  pose proof (Qfloor_le (a + (1 # 2))) as L.
  assert (B : inject_Z (Qfloor (a + (1 # 2))) < inject_Z (n + 1)).
  { rewrite inject_Z_plus. change (inject_Z 1) with 1. lra. }
  rewrite <- Zlt_Qlt in B. lia.
Qed.

Lemma round_ge_int (a : Q) (n : Z) : inject_Z n <= a -> (n <= Js.round a)%Z.
Proof.
  intro H. unfold Js.round.
  pose proof (Qlt_floor (a + (1 # 2))) as U.
  assert (B : inject_Z n < inject_Z (Qfloor (a + (1 # 2)) + 1)) by lra.
  rewrite <- Zlt_Qlt in B. lia.
Qed.

(** Bounds on a quotient of an integer by a positive constant, read off the
    integer. *)
Lemma inject_div_le (k n : Z) (d : Q) :
  0 < d -> (k <= n)%Z -> inject_Z k / d <= inject_Z n / d.
Proof.
  intros Hd H. rewrite Zle_Qle in H.
  unfold Qdiv. apply Qmult_le_compat_r; [exact H|].
  apply Qlt_le_weak, Qinv_lt_0_compat, Hd.
Qed.

(** ** The values the dispatcher works with *)

Lemma clampVelocity_range v : -1 <= clampVelocity v <= 1.
Proof.
  unfold clampVelocity.
  destruct (min_spec 1 v) as [[H1 E1]|[H1 E1]]; rewrite E1;
    destruct (max_spec (-1) v) as [[H2 E2]|[H2 E2]];
    destruct (max_spec (-1) 1) as [[H3 E3]|[H3 E3]];
    try rewrite E2; try rewrite E3; lra.
Qed.

(** The rounded velocity is a whole number of thousandths in [[-1, 1]]. *)
Lemma roundVelocity_clamp_range v :
  (-1000 <= Js.round (clampVelocity v * 1000) <= 1000)%Z.
Proof.
  pose proof (clampVelocity_range v) as [L U]. split.
  - apply round_ge_int. change (inject_Z (-1000)) with (-1000). lra.
  - apply round_le_int. change (inject_Z 1000) with 1000. lra.
Qed.

Lemma thousandths_range (k : Z) :
  (-1000 <= k <= 1000)%Z -> -1 <= inject_Z k / 1000 <= 1.
Proof.
  intros [L U]. split.
  - setoid_replace (-1) with (inject_Z (-1000) / 1000) by reflexivity.
    apply inject_div_le; [lra|exact L].
  - setoid_replace 1 with (inject_Z 1000 / 1000) by reflexivity.
    apply inject_div_le; [lra|exact U].
Qed.

(** What [sentVelocity] can be: the filter either zeroes the rounded value or
    lets it through. *)
Lemma sentVelocity_cases v :
  let r := roundVelocity (clampVelocity v) in
  (Qabs r < velocityEpsilon /\ sentVelocity v = 0)
  \/ (velocityEpsilon <= Qabs r /\ sentVelocity v = r).
Proof.
  intro r. unfold sentVelocity, filterVelocity. fold r. unfold Js.abs.
  destruct (Js.lt (Qabs r) velocityEpsilon) eqn:E.
  - left. split; [now apply lt_spec|reflexivity].
  - right. split; [now apply lt_false|reflexivity].
Qed.

Lemma sentVelocity_thousandths v :
  exists k : Z, (-1000 <= k <= 1000)%Z /\ sentVelocity v == inject_Z k / 1000.
Proof.
  destruct (sentVelocity_cases v) as [[_ E]|[_ E]]; rewrite E.
  - exists 0%Z. split; [lia|reflexivity].
  - exists (Js.round (clampVelocity v * 1000)). split.
    + apply roundVelocity_clamp_range.
    + reflexivity.
Qed.

Lemma sentVelocity_range v : -1 <= sentVelocity v <= 1.
Proof.
  destruct (sentVelocity_thousandths v) as (k & Hk & E).
  rewrite E. now apply thousandths_range.
Qed.

Lemma sentVelocity_zero_or_epsilon v :
  sentVelocity v == 0 \/ velocityEpsilon <= Qabs (sentVelocity v).
Proof.
  destruct (sentVelocity_cases v) as [[_ E]|[H E]]; rewrite E.
  - left. reflexivity.
  - right. exact H.
Qed.

(** ** The dispatcher's gates and outcomes *)

Lemma sendCommand_no_host s vel ang w :
  hass s = None -> sendCommand s vel ang w = (s, []).
Proof. intro H. unfold sendCommand. now rewrite H. Qed.

Lemma sendCommand_disabled s vel ang w :
  _isManualControlEnabled s = false -> sendCommand s vel ang w = (s, []).
Proof.
  intro H. unfold sendCommand. rewrite H. simpl. now destruct (hass s).
Qed.

(** A dispatcher call either leaves the card alone and calls nothing, or
    issues the one [send_command] built from its processed arguments; the
    cache then follows unless the call threw. *)
Lemma sendCommand_shape s vel ang w :
  sendCommand s vel ang w = (s, [])
  \/ exists v a,
       vel = Js.Num v /\ ang = Js.Num a
       /\ hass s <> None /\ _isManualControlEnabled s = true
       /\ snd (sendCommand s vel ang w)
          = [send_command (sentVelocity v) (sentAngle a)]
       /\ fst (sendCommand s vel ang w)
          = match callService w with
            | Throws => s
            | Returns _ =>
              set_lastSent (sentAngle a) (sentVelocity v) (now w) s
            end.
Proof.
  unfold sendCommand.
  destruct (hass s) as [h|] eqn:Hh; [|now left].
  destruct (_isManualControlEnabled s) eqn:He; simpl; [|now left].
  destruct vel as [|v]; [now left|].
  destruct ang as [|a]; [now left|].
  match goal with |- context [if ?c then (s, []) else _] =>
    destruct c; [now left|] end.
  match goal with |- context [if ?c then (s, []) else _] =>
    destruct c; [now left|] end.
  right. exists v, a. repeat split; try congruence.
  - now destruct (callService w).
  - now destruct (callService w).
Qed.

Lemma sendCommand_at_most_one s vel ang w :
  (List.length (snd (sendCommand s vel ang w)) <= 1)%nat.
Proof.
  destruct (sendCommand_shape s vel ang w) as [E|(v & a & _ & _ & _ & _ & E & _)];
    rewrite E; simpl; lia.
Qed.

(** A call that went out and did not throw: the card was ready and enabled,
    and the cache now holds the processed vector and the time of the call. *)
Lemma sendCommand_transmitted s v a w :
  snd (sendCommand s (Js.Num v) (Js.Num a) w) <> [] ->
  callService w <> Throws ->
  hass s <> None /\ _isManualControlEnabled s = true
  /\ sendCommand s (Js.Num v) (Js.Num a) w
     = (set_lastSent (sentAngle a) (sentVelocity v) (now w) s,
        [send_command (sentVelocity v) (sentAngle a)]).
Proof.
  intros Hs Ht.
  destruct (sendCommand_shape s (Js.Num v) (Js.Num a) w)
    as [E|(v' & a' & Ev & Ea & Hh & He & E1 & E2)].
  - rewrite E in Hs. now elim Hs.
  - injection Ev as <-. injection Ea as <-.
    repeat split; trivial.
    rewrite (surjective_pairing (sendCommand _ _ _ _)), E1, E2.
    destruct (callService w); [now elim Ht|reflexivity].
Qed.

(** The dispatcher on a ready, enabled card whose cache is filled: the three
    ways a call can go, on propositions. *)
Section FilledCache.

Variables (s : ValetudoControlCard) (h : Hass) (v a : Q) (w : Tick).
Variables (la lv : Q).
Hypothesis Hhost : hass s = Some h.
Hypothesis Henabled : _isManualControlEnabled s = true.
Hypothesis Hcache : _lastSent s = {| angle := Some la; velocity := Some lv |}.

Lemma sendCommand_zero_suppressed :
  sentVelocity v == 0 -> lv == 0 -> Qabs (sentAngle a - la) <= angleEpsilon -> sentAngle a == 0 ->
  sendCommand s (Js.Num v) (Js.Num a) w = (s, []).
Proof.
  intros H1 H2 H3 H4. unfold sendCommand.
  rewrite Hhost, Henabled, Hcache. cbv beta iota zeta.
  cbn [negb angle velocity Js.opt_eq Js.is_null].
  apply eq_spec in H1, H2, H4. apply gt_false in H3.
  unfold sentVelocity, sentAngle in *. unfold Js.abs.
  now rewrite H1, H2, H3, H4.
Qed.

Lemma sendCommand_epsilon_suppressed :
  (now w - _lastSendTime s < _commandIntervalMs)%Z ->
  Qabs (sentAngle a - la) <= angleEpsilon ->
  Qabs (sentVelocity v - lv) <= velocityEpsilon ->
  sendCommand s (Js.Num v) (Js.Num a) w = (s, []).
Proof.
  intros H1 H2 H3. unfold sendCommand.
  rewrite Hhost, Henabled, Hcache. cbv beta iota zeta.
  cbn [negb angle velocity Js.opt_eq Js.is_null].
  apply gt_false in H2, H3. apply Z.leb_gt in H1. rewrite <- Z.geb_leb in H1.
  unfold sentVelocity, sentAngle in *. unfold Js.abs.
  rewrite H1, H2, H3. cbn [negb orb andb].
  now destruct (_ && _ && _ && _).
Qed.

Lemma sendCommand_goes_out :
  ~ (sentVelocity v == 0 /\ lv == 0 /\ Qabs (sentAngle a - la) <= angleEpsilon /\ sentAngle a == 0) ->
  (now w - _lastSendTime s >= _commandIntervalMs)%Z
  \/ angleEpsilon < Qabs (sentAngle a - la)
  \/ velocityEpsilon < Qabs (sentVelocity v - lv) ->
  snd (sendCommand s (Js.Num v) (Js.Num a) w) = [send_command (sentVelocity v) (sentAngle a)].
Proof.
  intros Hz Hs. unfold sendCommand.
  rewrite Hhost, Henabled, Hcache. cbv beta iota zeta.
  cbn [negb angle velocity Js.opt_eq Js.is_null].
  unfold sentVelocity, sentAngle in *. unfold Js.abs.
  set (z := (_ && _ && _ && _)).
  assert (Ez : z = false).
  { destruct z eqn:E; [|reflexivity]. exfalso. apply Hz. subst z.
    apply andb_prop in E as [E E4]. apply andb_prop in E as [E E3].
    apply andb_prop in E as [E1 E2].
    apply eq_spec in E1, E2, E4. apply negb_true_iff, gt_false in E3.
    tauto. }
  rewrite Ez.
  set (c := (_ || _ || _ || _)).
  assert (Ec : c = true).
  { subst c. cbn [orb]. destruct Hs as [H|[H|H]].
    - apply Z.ge_le, Z.leb_le in H. rewrite <- Z.geb_leb in H.
      rewrite H. reflexivity.
    - apply gt_spec in H. rewrite H. now rewrite orb_true_r.
    - apply gt_spec in H. rewrite H. now rewrite orb_true_r. }
  rewrite Ec. cbn [negb]. now destruct (callService w).
Qed.

End FilledCache.

(** With no angle in the cache the zero check cannot fire and the call goes
    out, whatever the cached velocity and the time are. *)
Lemma sendCommand_empty_cache s h v a w :
  hass s = Some h -> _isManualControlEnabled s = true ->
  angle (_lastSent s) = None ->
  snd (sendCommand s (Js.Num v) (Js.Num a) w)
  = [send_command (sentVelocity v) (sentAngle a)].
Proof.
  intros Hh He Hc. unfold sendCommand. rewrite Hh, He, Hc.
  cbv beta iota zeta. cbn [negb Js.is_null orb andb].
  rewrite andb_false_r. cbn [andb].
  now destruct (callService w).
Qed.

(** A call that threw leaves the whole card as it was; the card changes only
    through a call that went out and returned. *)
Lemma sendCommand_throws_keeps_card s vel ang w :
  callService w = Throws -> fst (sendCommand s vel ang w) = s.
Proof.
  intro Ht.
  destruct (sendCommand_shape s vel ang w)
    as [E|(v & a & _ & _ & _ & _ & _ & E)]; rewrite E; [reflexivity|].
  now rewrite Ht.
Qed.

Lemma sendCommand_changes_only_on_return s vel ang w :
  fst (sendCommand s vel ang w) <> s ->
  callService w <> Throws /\ snd (sendCommand s vel ang w) <> [].
Proof.
  intro Hn.
  destruct (sendCommand_shape s vel ang w)
    as [E|(v & a & _ & _ & _ & _ & E1 & E2)].
  - rewrite E in Hn. now elim Hn.
  - split.
    + intro Ht. apply Hn. now apply sendCommand_throws_keeps_card.
    + rewrite E1. discriminate.
Qed.

(** * The claims *)

(** ** C5: first-send guarantee *)

(** C5.  For every vector (velocity, angle), the stop vector (0,0) included:
    when the last-sent angle of the cache is [null], manual control is
    enabled and a host context is available, the dispatcher call issues
    exactly one [send_command], carrying that vector as processed by the
    dispatcher. *)
Theorem first_send_guarantee s h v a w :
  hass s = Some h ->
  _isManualControlEnabled s = true ->
  angle (_lastSent s) = None ->
  snd (sendCommand s (Js.Num v) (Js.Num a) w)
  = [send_command (sentVelocity v) (sentAngle a)].
Proof. apply sendCommand_empty_cache. Qed.

Lemma first_send_guarantee_witness :
  snd (sendCommand mountedOn (Js.Num 0) (Js.Num 0) (fulfils 1000))
  = [send_command (sentVelocity 0) (sentAngle 0)].
Proof.
  apply (first_send_guarantee mountedOn hostOn 0 0 (fulfils 1000));
    reflexivity.
Defined.

(** ** C10: what velocity can go out *)

(** C10.  Every [send_command] the dispatcher issues carries a velocity in
    [[-1, 1]] that is either 0 or at least the velocity epsilon 0.02 in
    absolute value, and a whole number of thousandths: it is the raw
    velocity clamped, rounded to three decimals and filtered by the
    dispatcher itself. *)
Theorem transmitted_velocity_invariant s vel ang w v a :
  In (send_command v a) (snd (sendCommand s vel ang w)) ->
  -1 <= v <= 1
  /\ (v == 0 \/ 2 # 100 <= Qabs v)
  /\ (exists k : Z, v == inject_Z k / 1000)
  /\ exists raw, vel = Js.Num raw
                 /\ v = filterVelocity (roundVelocity (clampVelocity raw)).
Proof.
  intro Hin.
  destruct (sendCommand_shape s vel ang w)
    as [E|(v0 & a0 & Ev & _ & _ & _ & E & _)]; rewrite E in Hin.
  - destruct Hin.
  - destruct Hin as [Hin|[]]. injection Hin as <- <-.
    split; [apply sentVelocity_range|].
    split; [apply sentVelocity_zero_or_epsilon|].
    split.
    + destruct (sentVelocity_thousandths v0) as (k & _ & Ek). now exists k.
    + exists v0. split; [exact Ev|reflexivity].
Qed.

Lemma transmitted_velocity_invariant_witness :
  -1 <= sentVelocity 7 <= 1
  /\ (sentVelocity 7 == 0 \/ 2 # 100 <= Qabs (sentVelocity 7))
  /\ (exists k : Z, sentVelocity 7 == inject_Z k / 1000)
  /\ exists raw, Js.Num 7 = Js.Num raw
                 /\ sentVelocity 7
                    = filterVelocity (roundVelocity (clampVelocity raw)).
Proof.
  apply (transmitted_velocity_invariant mountedOn (Js.Num 7) (Js.Num 45)
           (fulfils 1000) (sentVelocity 7) (sentAngle 45)).
  left. reflexivity.
Defined.

(** ** C8: a failed transmission and the cache *)

(** C8, at a send whose promise rejects.  The card is mounted and enabled
    with an empty cache; [send_command] is called for (0.5, 45) at time 1000
    and returns a promise that rejects.  The call is not awaited, so nothing
    is caught: the cache takes the new angle, velocity and time although the
    transmission failed. *)
Theorem rejected_send_overwrites_cache :
  let r := sendCommand mountedOn (Js.Num (1 # 2)) (Js.Num 45) (rejects 1000) in
  _lastSent mountedOn = {| angle := None; velocity := None |}
  /\ _lastSendTime mountedOn = 0%Z
  /\ snd r = [send_command (sentVelocity (1 # 2)) (sentAngle 45)]
  /\ _lastSent (fst r)
     = {| angle := Some (sentAngle 45);
          velocity := Some (sentVelocity (1 # 2)) |}
  /\ _lastSendTime (fst r) = 1000%Z.
Proof. vm_compute. repeat split; reflexivity. Qed.

(** ** C3: epsilon suppression *)

(** C3 as stated fails.  First call: (0.03, 0) at time 1000 on the mounted,
    enabled card; it goes out and fills the cache with velocity 0.03.
    Second call 100 ms later with the raw vector (0.015, 0): the raw deltas
    are 0 and 0.015, both within the epsilons, yet the rounded velocity
    0.015 is filtered to 0 before the comparison, |0 - 0.03| exceeds 0.02,
    and a second command goes out. *)
Lemma epsilon_suppression_counterexample :
  let r1 := sendCommand mountedOn (Js.Num (3 # 100)) (Js.Num 0) (fulfils 1000) in
  let r2 := sendCommand (fst r1) (Js.Num (15 # 1000)) (Js.Num 0) (fulfils 1100) in
  snd r1 = [send_command (30 # 1000) (0 # 10)]
  /\ _lastSent (fst r1)
     = {| angle := Some (0 # 10); velocity := Some (30 # 1000) |}
  /\ Qabs (0 - (0 # 10)) <= 3
  /\ Qabs ((15 # 1000) - (30 # 1000)) <= 2 # 100
  /\ (1100 - _lastSendTime (fst r1) < 250)%Z
  /\ snd r2 = [send_command 0 (0 # 10)].
Proof.
  vm_compute. repeat split; try reflexivity; discriminate.
Qed.

(** C3, amended.  Two consecutive dispatcher calls, the first of which went
    out and returned.  If the values the dispatcher compares for the second
    call, its velocity after clamping, rounding and filtering and its angle
    after rounding, differ from the last-sent values by less than the
    epsilons (|delta angle| < 3, |delta velocity| < 0.02) and less than
    250 ms have passed since the send, the second call transmits nothing and
    leaves the card as it is. *)
Theorem epsilon_suppression s v1 a1 w1 v2 a2 w2 :
  let r1 := sendCommand s (Js.Num v1) (Js.Num a1) w1 in
  snd r1 <> [] ->
  callService w1 <> Throws ->
  Qabs (sentAngle a2 - sentAngle a1) < angleEpsilon ->
  Qabs (sentVelocity v2 - sentVelocity v1) < velocityEpsilon ->
  (now w2 - now w1 < _commandIntervalMs)%Z ->
  sendCommand (fst r1) (Js.Num v2) (Js.Num a2) w2 = (fst r1, []).
Proof.
  intros r1 Hs Ht Ha Hv Hw.
  destruct (sendCommand_transmitted s v1 a1 w1 Hs Ht) as (Hh & He & E).
  subst r1. rewrite E. cbn [fst].
  destruct (hass s) as [h|] eqn:Eh; [|now elim Hh].
  apply sendCommand_epsilon_suppressed
    with (h := h) (la := sentAngle a1) (lv := sentVelocity v1);
    try reflexivity; trivial.
  - now apply Qlt_le_weak.
  - now apply Qlt_le_weak.
Qed.

Lemma epsilon_suppression_witness :
  sendCommand
    (fst (sendCommand mountedOn (Js.Num (1 # 2)) (Js.Num 45) (fulfils 1000)))
    (Js.Num (51 # 100)) (Js.Num 47) (fulfils 1100)
  = (fst (sendCommand mountedOn (Js.Num (1 # 2)) (Js.Num 45) (fulfils 1000)),
     []).
Proof.
  apply (epsilon_suppression mountedOn (1 # 2) 45 (fulfils 1000)
           (51 # 100) 47 (fulfils 1100)).
  - vm_compute. discriminate.
  - discriminate.
  - vm_compute. reflexivity.
  - vm_compute. reflexivity.
  - vm_compute. reflexivity.
Defined.

(** ** C4: periodic refresh *)

(** C4 as stated fails for the stop vector.  (0,0) goes out at time 1000 on
    the mounted, enabled card; the same vector a full second later, well
    past the 250 ms interval, is dropped by the zero-velocity check and the
    card stays as it was. *)
Lemma periodic_refresh_counterexample :
  let r1 := sendCommand mountedOn (Js.Num 0) (Js.Num 0) (fulfils 1000) in
  let r2 := sendCommand (fst r1) (Js.Num 0) (Js.Num 0) (fulfils 2000) in
  snd r1 = [send_command 0 (0 # 10)]
  /\ (2000 - _lastSendTime (fst r1) >= 250)%Z
  /\ r2 = (fst r1, []).
Proof.
  vm_compute. repeat split; try reflexivity; discriminate.
Qed.

(** C4, amended.  Two consecutive dispatcher calls with the same vector at
    least 250 ms apart, the first of which went out and returned.  Unless the
    vector is the stop vector after processing (velocity filtered to 0 and
    angle rounded to 0), the second call transmits it again; if it is the
    stop vector, the second call transmits nothing, whatever time has
    passed. *)
Theorem periodic_refresh s v a w1 w2 :
  let r1 := sendCommand s (Js.Num v) (Js.Num a) w1 in
  snd r1 <> [] ->
  callService w1 <> Throws ->
  (now w2 - now w1 >= _commandIntervalMs)%Z ->
  (~ (sentVelocity v == 0 /\ sentAngle a == 0) ->
   snd (sendCommand (fst r1) (Js.Num v) (Js.Num a) w2)
   = [send_command (sentVelocity v) (sentAngle a)])
  /\ (sentVelocity v == 0 /\ sentAngle a == 0 ->
      sendCommand (fst r1) (Js.Num v) (Js.Num a) w2 = (fst r1, [])).
Proof.
  intros r1 Hs Ht Hw.
  destruct (sendCommand_transmitted s v a w1 Hs Ht) as (Hh & He & E).
  subst r1. rewrite E. cbn [fst].
  destruct (hass s) as [h|] eqn:Eh; [|now elim Hh].
  assert (D : Qabs (sentAngle a - sentAngle a) <= angleEpsilon).
  { apply Qabs_Qle_condition. unfold angleEpsilon. lra. }
  split.
  - intro Hz.
    apply sendCommand_goes_out
      with (h := h) (la := sentAngle a) (lv := sentVelocity v);
      try reflexivity; trivial.
    + tauto.
    + left. exact Hw.
  - intros [Hv Ha].
    apply sendCommand_zero_suppressed
      with (h := h) (la := sentAngle a) (lv := sentVelocity v);
      try reflexivity; trivial.
Qed.

Lemma periodic_refresh_witness :
  snd (sendCommand
         (fst (sendCommand mountedOn (Js.Num (1 # 2)) (Js.Num 45)
                 (fulfils 1000)))
         (Js.Num (1 # 2)) (Js.Num 45) (fulfils 1300))
  = [send_command (sentVelocity (1 # 2)) (sentAngle 45)].
Proof.
  apply (periodic_refresh mountedOn (1 # 2) 45 (fulfils 1000) (fulfils 1300)).
  - vm_compute. discriminate.
  - discriminate.
  - vm_compute. discriminate.
  - vm_compute. intros [H _]. discriminate.
Defined.

(** ** C1: the stop command at the end of a drag *)

(** The dispatcher touches nothing but the cache. *)
Lemma sendCommand_frame s vel ang w :
  let s' := fst (sendCommand s vel ang w) in
  hass s' = hass s /\ config s' = config s
  /\ _velocity s' = _velocity s /\ _angle s' = _angle s
  /\ _isManualControlEnabled s' = _isManualControlEnabled s
  /\ _isTogglingManualControl s' = _isTogglingManualControl s
  /\ _commandInterval s' = _commandInterval s
  /\ _isDragging s' = _isDragging s.
Proof.
  destruct (sendCommand_shape s vel ang w)
    as [E|(v & a & _ & _ & _ & _ & _ & E)]; cbv zeta; rewrite E.
  - cbn [fst]. repeat split.
  - destruct (callService w); repeat split.
Qed.

(** The stop vector as the dispatcher processes it. *)
Lemma sent_stop_vector : sentVelocity 0 = 0 /\ sentAngle 0 = 0 # 10.
Proof. split; reflexivity. Qed.

Lemma stop_at_most_once s w :
  snd (sendCommand s (Js.Num 0) (Js.Num 0) w) = []
  \/ snd (sendCommand s (Js.Num 0) (Js.Num 0) w) = [send_command 0 (0 # 10)].
Proof.
  destruct (sendCommand_shape s (Js.Num 0) (Js.Num 0) w)
    as [E|(v & a & Ev & Ea & _ & _ & E & _)]; rewrite E.
  - now left.
  - right. injection Ev as <-. injection Ea as <-. reflexivity.
Qed.

(** The stop goes out on a ready, enabled card whose cache is empty, or
    holds an angle beyond the angle epsilon, or a velocity beyond the
    velocity epsilon. *)
Lemma stop_goes_out s w :
  hass s <> None -> _isManualControlEnabled s = true ->
  angle (_lastSent s) = None
  \/ (exists la, angle (_lastSent s) = Some la /\ angleEpsilon < Qabs la)
  \/ (exists lv, velocity (_lastSent s) = Some lv
                 /\ velocityEpsilon < Qabs lv) ->
  snd (sendCommand s (Js.Num 0) (Js.Num 0) w) = [send_command 0 (0 # 10)].
Proof.
  intros Hh He Hc.
  destruct (hass s) as [h|] eqn:Eh; [|now elim Hh].
  destruct (angle (_lastSent s)) as [la|] eqn:Ea.
  2:{ now apply (sendCommand_empty_cache s h 0 0 w). }
  destruct (velocity (_lastSent s)) as [lv|] eqn:Ev.
  - assert (Ec : _lastSent s = {| angle := Some la; velocity := Some lv |}).
    { destruct (_lastSent s). simpl in *. congruence. }
    assert (Aa : Qabs (sentAngle 0 - la) == Qabs la).
    { rewrite <- (Qabs_opp la). apply Qabs_wd.
      destruct sent_stop_vector as [_ ->]. ring. }
    assert (Av : Qabs (sentVelocity 0 - lv) == Qabs lv).
    { rewrite <- (Qabs_opp lv). apply Qabs_wd.
      destruct sent_stop_vector as [-> _]. ring. }
    change [send_command 0 (0 # 10)]
      with [send_command (sentVelocity 0) (sentAngle 0)].
    apply sendCommand_goes_out with (h := h) (la := la) (lv := lv); trivial.
    + intros (_ & Hz & Hl & _).
      destruct Hc as [Hc|[(x & Hx & Hc)|(x & Hx & Hc)]].
      * discriminate.
      * injection Hx as <-. rewrite Aa in Hl. lra.
      * injection Hx as <-. rewrite Hz in Hc.
        unfold velocityEpsilon in Hc. simpl in Hc. discriminate.
    + destruct Hc as [Hc|[(x & Hx & Hc)|(x & Hx & Hc)]].
      * discriminate.
      * injection Hx as <-. right. left. now rewrite Aa.
      * injection Hx as <-. right. right. now rewrite Av.
  - unfold sendCommand. rewrite Eh, He, Ea, Ev.
    cbv beta iota zeta. cbn [negb Js.is_null Js.opt_eq orb andb].
    rewrite andb_false_r. cbn [andb]. rewrite !orb_true_r. cbn [negb].
    now destruct (callService w).
Qed.

(** The stop is dropped when the cache already holds velocity 0 and an
    angle within the angle epsilon of 0. *)
Lemma stop_dropped s w la lv :
  _lastSent s = {| angle := Some la; velocity := Some lv |} ->
  lv == 0 -> Qabs la <= angleEpsilon ->
  sendCommand s (Js.Num 0) (Js.Num 0) w = (s, []).
Proof.
  intros Hc Hv Ha.
  destruct (hass s) as [h|] eqn:Eh; [|now apply sendCommand_no_host].
  destruct (_isManualControlEnabled s) eqn:Ee;
    [|now apply sendCommand_disabled].
  apply sendCommand_zero_suppressed with (h := h) (la := la) (lv := lv);
    trivial; try reflexivity.
  assert (Aa : Qabs (sentAngle 0 - la) == Qabs la).
  { rewrite <- (Qabs_opp la). apply Qabs_wd.
    destruct sent_stop_vector as [_ ->]. ring. }
  now rewrite Aa.
Qed.

(** What a release prepares before it calls the dispatcher. *)
Lemma handleJoystickEnd_unfold s w :
  _isDragging s = true ->
  handleJoystickEnd s w
  = sendCommand
      (set_vector 0 0 (clearCommandInterval (set_isDragging false s)))
      (Js.Num 0) (Js.Num 0) w.
Proof.
  intro Hd. unfold handleJoystickEnd, resetJoystick. rewrite Hd.
  cbn [negb]. cbv zeta. unfold clearCommandInterval.
  cbn [set_isDragging _commandInterval].
  destruct (_commandInterval s); reflexivity.
Qed.

Lemma released_card s :
  let s' := set_vector 0 0 (clearCommandInterval (set_isDragging false s)) in
  hass s' = hass s
  /\ _isManualControlEnabled s' = _isManualControlEnabled s
  /\ _lastSent s' = _lastSent s /\ _lastSendTime s' = _lastSendTime s
  /\ _isDragging s' = false /\ _commandInterval s' = None
  /\ _velocity s' = 0 /\ _angle s' = 0.
Proof.
  unfold clearCommandInterval. cbn.
  destruct (_commandInterval s) eqn:E; cbn; repeat split; trivial.
Qed.

(** With manual control disabled every path that ends a drag or asks for a
    stop stays silent. *)
Lemma resetJoystick_disabled s b w :
  _isManualControlEnabled s = false -> snd (resetJoystick s b w) = [].
Proof.
  intro He. unfold resetJoystick. destruct b; [|reflexivity].
  rewrite sendCommand_disabled; [reflexivity|].
  now destruct (_isDragging s).
Qed.

Lemma resetJoystick_frame s b w :
  let s' := fst (resetJoystick s b w) in
  _isManualControlEnabled s' = _isManualControlEnabled s
  /\ _isDragging s' = _isDragging s
  /\ hass s' = hass s.
Proof.
  unfold resetJoystick. destruct b.
  - destruct (sendCommand_frame
                (if negb (_isDragging s) then set_vector 0 0 s else s)
                (Js.Num 0) (Js.Num 0) w)
      as (H1 & _ & _ & _ & H2 & _ & _ & H3).
    cbv zeta in *. rewrite H1, H2, H3.
    destruct (_isDragging s) eqn:E; repeat split; cbn; trivial.
  - cbn. destruct (_isDragging s) eqn:E; repeat split; cbn; trivial.
Qed.

Lemma updated_disabled_mid_drag s changedProperties w1 w2 :
  _isManualControlEnabled s = false ->
  has changedProperties P_isManualControlEnabled = true ->
  _isDragging s = true ->
  _isDragging (fst (updated s changedProperties w1 w2)) = false
  /\ snd (updated s changedProperties w1 w2) = [].
Proof.
  intros He Hc Hd. unfold updated. rewrite Hc, He, Hd. cbn [negb andb orb].
  set (s1 := clearCommandInterval (set_isDragging false s)).
  assert (E1 : _isManualControlEnabled s1 = false).
  { subst s1. unfold clearCommandInterval. cbn [set_isDragging _commandInterval].
    destruct (_commandInterval s); cbn; trivial. }
  assert (D1 : _isDragging s1 = false).
  { subst s1. unfold clearCommandInterval. cbn [set_isDragging _commandInterval].
    destruct (_commandInterval s); cbn; trivial. }
  pose proof (resetJoystick_disabled s1 true w1 E1) as S1.
  destruct (resetJoystick_frame s1 true w1) as (F1 & F2 & _).
  destruct (resetJoystick s1 true w1) as [s2 calls1] eqn:R1.
  cbn [fst snd] in *. rewrite F2, D1, F1, E1. cbn [negb orb andb].
  pose proof (resetJoystick_disabled s2 true w2) as S2.
  destruct (resetJoystick_frame s2 true w2) as (G1 & G2 & _).
  destruct (resetJoystick s2 true w2) as [s3 calls2] eqn:R2.
  cbn [fst snd] in *. rewrite G2, F2, D1, S1, S2; [|congruence].
  split; reflexivity.
Qed.

(** C1 as stated fails, on both ways a drag can end.

    Release: a drag starts at the centre of the surface at time 1000; the
    first sample (0,0) goes out and fills the cache.  The pointer is released
    half a second later: the drag ends and nothing is transmitted, the stop
    being dropped by the zero-velocity check.

    Disabled mid-drag: a drag starts straight ahead at half speed; the sample
    (0.5, 0) goes out.  The switch is then reported off, the next poll adopts
    the disabled state, and [updated] ends the drag: nothing is transmitted,
    both stop attempts being stopped at the enabled gate. *)
Lemma forced_stop_counterexample :
  let d1 := handleJoystickStart (M := unreadMath) mountedOn true 0 0
              (fulfils 1000) in
  let e1 := handleJoystickEnd (fst d1) (fulfils 1500) in
  let d2 := handleJoystickStart (M := unreadMath) mountedOn true 0 (575 # 1000)
              (fulfils 1000) in
  let p2 := pollTick (set_hass (Some hostOff) (fst d2)) in
  let e2 := updated p2 [P_isManualControlEnabled]
              (fulfils 6000) (fulfils 6000) in
  (snd d1 = [send_command 0 (0 # 10)] /\ _isDragging (fst d1) = true
   /\ _isDragging (fst e1) = false /\ snd e1 = [])
  /\ (transmissions (snd d2) = [(sentVelocity (1 # 2), sentAngle 0)]
      /\ _isDragging p2 = true /\ _isManualControlEnabled p2 = false
      /\ _isDragging (fst e2) = false /\ snd e2 = []).
Proof.
  vm_compute. repeat split; reflexivity.
Qed.

(** C1, amended.  Ending a drag by release (pointer-up or cancel) resets the
    drag state and calls the dispatcher once with (0,0) through its ordinary
    path, so at most one command is transmitted and it is the stop command.
    The stop is transmitted when a host context is available, manual control
    is enabled, and the cache is empty or holds an angle beyond 3 or a
    velocity beyond 0.02 in absolute value.  It is not transmitted when
    manual control is disabled, nor when the cache already holds velocity 0
    with an angle within 3 of 0.  A drag ended because manual control was
    disabled mid-drag transmits nothing. *)
Theorem drag_end_stop s w :
  _isDragging s = true ->
  let r := handleJoystickEnd s w in
  (_isDragging (fst r) = false /\ _commandInterval (fst r) = None
   /\ _velocity (fst r) = 0 /\ _angle (fst r) = 0)
  /\ (snd r = [] \/ snd r = [send_command 0 (0 # 10)])
  /\ (hass s <> None -> _isManualControlEnabled s = true ->
      angle (_lastSent s) = None
      \/ (exists la, angle (_lastSent s) = Some la /\ 3 < Qabs la)
      \/ (exists lv, velocity (_lastSent s) = Some lv /\ 2 # 100 < Qabs lv) ->
      snd r = [send_command 0 (0 # 10)])
  /\ (_isManualControlEnabled s = false -> snd r = [])
  /\ (forall la lv,
        _lastSent s = {| angle := Some la; velocity := Some lv |} ->
        lv == 0 -> Qabs la <= 3 -> snd r = [])
  /\ (forall changedProperties w1 w2,
        _isManualControlEnabled s = false ->
        has changedProperties P_isManualControlEnabled = true ->
        _isDragging (fst (updated s changedProperties w1 w2)) = false
        /\ snd (updated s changedProperties w1 w2) = []).
Proof.
  intros Hd r. subst r. rewrite (handleJoystickEnd_unfold s w Hd).
  destruct (released_card s) as (R1 & R2 & R3 & R4 & R5 & R6 & R7 & R8).
  set (s' := set_vector 0 0 (clearCommandInterval (set_isDragging false s)))
    in *.
  destruct (sendCommand_frame s' (Js.Num 0) (Js.Num 0) w)
    as (_ & _ & F3 & F4 & _ & _ & F7 & F8).
  cbv zeta in *.
  split; [|split; [|split; [|split; [|split]]]].
  - repeat split; congruence.
  - apply stop_at_most_once.
  - intros Hh He Hc. apply stop_goes_out.
    + now rewrite R1.
    + now rewrite R2.
    + now rewrite R3.
  - intro He. rewrite sendCommand_disabled; [reflexivity|].
    now rewrite R2.
  - intros la lv Hc Hv Ha.
    rewrite (stop_dropped s' w la lv); trivial. now rewrite R3.
  - intros c w1 w2 He Hc. now apply updated_disabled_mid_drag.
Qed.

Lemma drag_end_stop_witness :
  snd (handleJoystickEnd
         (fst (handleJoystickStart (M := unreadMath) mountedOn true 0
                 (575 # 1000) (fulfils 1000)))
         (fulfils 1500))
  = [send_command 0 (0 # 10)].
Proof.
  destruct (drag_end_stop
              (fst (handleJoystickStart (M := unreadMath) mountedOn true 0
                      (575 # 1000) (fulfils 1000)))
              (fulfils 1500))
    as (_ & _ & H & _).
  - reflexivity.
  - apply H.
    + discriminate.
    + reflexivity.
    + right. right. exists (sentVelocity (1 # 2)).
      split; [reflexivity|]. vm_compute. reflexivity.
Defined.

(** ** C2: the enabled gate *)

(** Which flag the three states come down to. *)
Lemma reconcilerState_not_enabled_flag s :
  reconcilerState s = Disabled \/ reconcilerState s = PendingToggle true
  <-> _isManualControlEnabled s = false.
Proof.
  unfold reconcilerState.
  destruct (_isTogglingManualControl s), (_isManualControlEnabled s);
    cbn; split; intro H; try reflexivity; try discriminate;
    try (destruct H; discriminate); auto.
Qed.

(** C2 as stated fails.  On the mounted, enabled card the user asks to
    disable manual control: the request goes out and the card is in
    PendingToggle(false).  The next resend tick of a drag at (0.5, 0) still
    transmits a movement command, which is no stop command. *)
Lemma gating_counterexample :
  let t := toggleManualControl mountedOn (Returns Fulfilled) in
  let s := set_vector (1 # 2) 0 (fst t) in
  snd t = [set_manual_control_state false]
  /\ reconcilerState s = PendingToggle false
  /\ reconcilerState s <> Enabled
  /\ transmissions (snd (commandTick s (fulfils 1000)))
     = [(500 # 1000, 0 # 10)].
Proof.
  vm_compute. repeat split; try reflexivity; discriminate.
Qed.

(** C2, amended.  The dispatcher is gated on the last known enabled flag, not
    on the pending toggle.  While that flag is false, that is in Disabled and
    in PendingToggle(true), no dispatcher call transmits anything or changes
    the card, and the stop command of a drag ending, of a joystick reset and
    of unmounting is no exception.  In PendingToggle(false) the flag is still
    true and the dispatcher transmits as in Enabled: a call on an empty cache
    with a host context goes out. *)
Theorem gating s :
  (reconcilerState s = Disabled \/ reconcilerState s = PendingToggle true ->
   (forall vel ang w, sendCommand s vel ang w = (s, []))
   /\ (forall w, snd (handleJoystickEnd s w) = [])
   /\ (forall b w, snd (resetJoystick s b w) = [])
   /\ (forall w, snd (sendStopCommand s w) = [])
   /\ (forall w, snd (commandTick s w) = [])
   /\ (forall w1 w2, snd (disconnectedCallback s w1 w2) = []))
  /\ (reconcilerState s = PendingToggle false ->
      forall h v a w,
        hass s = Some h -> angle (_lastSent s) = None ->
        snd (sendCommand s (Js.Num v) (Js.Num a) w)
        = [send_command (sentVelocity v) (sentAngle a)]).
Proof.
  split.
  - intro H. apply reconcilerState_not_enabled_flag in H.
    repeat split.
    + intros. now apply sendCommand_disabled.
    + intro w. unfold handleJoystickEnd.
      destruct (_isDragging s) eqn:Hd; [|reflexivity]. cbn [negb].
      apply resetJoystick_disabled.
      unfold clearCommandInterval. cbn [set_isDragging _commandInterval].
      destruct (_commandInterval s); cbn; trivial.
    + intros. now apply resetJoystick_disabled.
    + intro w. unfold sendStopCommand. now rewrite sendCommand_disabled.
    + intro w. unfold commandTick. now rewrite sendCommand_disabled.
    + intros w1 w2. unfold disconnectedCallback.
      set (s1 := match _pollingInterval _ with
                 | Some _ => _ | None => _ end).
      assert (E1 : _isManualControlEnabled s1 = false).
      { subst s1. unfold clearCommandInterval.
        cbn [set_isConnected _commandInterval].
        destruct (_commandInterval s); cbn;
          destruct (_pollingInterval s); cbn; trivial. }
      pose proof (resetJoystick_disabled s1 true w1 E1) as S1.
      destruct (resetJoystick_frame s1 true w1) as (F1 & _ & _).
      destruct (resetJoystick s1 true w1) as [s2 calls1].
      cbn [fst snd] in *. unfold sendStopCommand.
      rewrite sendCommand_disabled by congruence.
      cbn. now rewrite S1.
  - intros H h v a w Hh Hc.
    apply sendCommand_empty_cache with (h := h); trivial.
    unfold reconcilerState in H.
    destruct (_isTogglingManualControl s), (_isManualControlEnabled s);
      cbn in H; congruence.
Qed.

Lemma gating_witness :
  (forall vel ang w, sendCommand mountedOff vel ang w = (mountedOff, []))
  /\ snd (sendCommand
            (fst (toggleManualControl mountedOn (Returns Fulfilled)))
            (Js.Num (1 # 2)) (Js.Num 0) (fulfils 1000))
     = [send_command (sentVelocity (1 # 2)) (sentAngle 0)].
Proof.
  split.
  - destruct (gating mountedOff) as [H _].
    apply H. left. reflexivity.
  - destruct (gating (fst (toggleManualControl mountedOn (Returns Fulfilled))))
      as [_ H].
    apply (H eq_refl hostOn); reflexivity.
Defined.

(** ** C6: a poll during a pending toggle *)

(** C6 as stated fails.  On the mounted, disabled card the user asks to
    enable manual control: the card is in PendingToggle(true).  The robot has
    not applied the request, and the next poll reads the switch off, the
    value known before the request: the poll clears the toggling flag and the
    card is back in Disabled. *)
Lemma pending_poll_counterexample :
  let t := toggleManualControl mountedOff (Returns Fulfilled) in
  reconcilerState (fst t) = PendingToggle true
  /\ option_map isOn (findSwitchEntity hostOff)
     = Some (_isManualControlEnabled (fst t))
  /\ _isTogglingManualControl (pollTick (fst t)) = false
  /\ reconcilerState (pollTick (fst t)) = Disabled.
Proof.
  vm_compute. repeat split; reflexivity.
Qed.

(** C6, amended.  A poll tick taken in PendingToggle(target) on a ready card
    whose host context lists a manual-control switch always clears the
    pending indicator and leaves the card in Enabled or Disabled according
    to the observed switch state, also when the observed value equals the
    last locally known one.  The card stays in PendingToggle(target), in
    fact unchanged, only when the card is not ready or no such switch is
    listed.  No clock is read: nothing times the pending state out. *)
Theorem pending_poll s target :
  reconcilerState s = PendingToggle target ->
  (forall h e,
     ready s = Some h -> findSwitchEntity h = Some e ->
     _isTogglingManualControl (pollTick s) = false
     /\ reconcilerState (pollTick s) = (if isOn e then Enabled else Disabled))
  /\ (ready s = None
      \/ (exists h, ready s = Some h /\ findSwitchEntity h = None) ->
      pollTick s = s).
Proof.
  intro Hp.
  assert (Ht : _isTogglingManualControl s = true).
  { unfold reconcilerState in Hp.
    destruct (_isTogglingManualControl s); [reflexivity|].
    destruct (_isManualControlEnabled s); discriminate. }
  split.
  - intros h e Hr He.
    unfold pollTick, findAndSetManualControlState. rewrite Hr, He, Ht.
    unfold reconcilerState.
    destruct (_isManualControlEnabled s) eqn:Ee, (isOn e) eqn:Eo;
      cbn; rewrite ?Ee; split; reflexivity.
  - intros [Hr|(h & Hr & Hf)].
    + unfold pollTick. now rewrite Hr.
    + unfold pollTick, findAndSetManualControlState,
        initializeManualControlState.
      now rewrite Hr, Hf.
Qed.

Lemma pending_poll_witness :
  reconcilerState
    (pollTick (fst (toggleManualControl mountedOff (Returns Fulfilled))))
  = Disabled.
Proof.
  destruct (pending_poll
              (fst (toggleManualControl mountedOff (Returns Fulfilled)))
              true eq_refl) as [H _].
  destruct (H hostOff {| state := "off"; friendly_name := None |}
              eq_refl eq_refl) as [_ E].
  exact E.
Defined.

(** ** C7: a toggle request during a pending toggle *)




(** ** C9: the lanes of the vector shaper *)

Lemma lanes_leave_deadzone x y :
  translationLane x y \/ rotationLane x y ->
  Js.lt (Js.abs x) deadzone && Js.lt (Js.abs y) deadzone = false.
Proof.
  unfold Js.abs. intros [[H _]|[H _]]; apply andb_false_iff.
  - right. apply lt_false. lra.
  - left. apply lt_false. lra.
Qed.

Lemma translationLane_test x y :
  Js.gt (Js.abs y) deadzone && Js.lt (Js.abs x) (deadzone * (15 # 10)) = true
  <-> translationLane x y.
Proof.
  unfold translationLane, Js.abs.
  now rewrite andb_true_iff, gt_spec, lt_spec.
Qed.

Lemma rotationLane_test x y :
  Js.gt (Js.abs x) deadzone && Js.lt (Js.abs y) (deadzone * (15 # 10)) = true
  <-> rotationLane x y.
Proof.
  unfold rotationLane, Js.abs.
  now rewrite andb_true_iff, gt_spec, lt_spec.
Qed.

Section ShaperLanes.

Context {M : Math}.

Lemma calculateMovement_translation s x y :
  translationLane x y ->
  calculateMovement s x y
  = set_vector
      (Js.max (-1)
         (Js.min 1 (if Js.gt y 0
                    then normalizeAxisValue (Js.abs y) * speed
                    else - (normalizeAxisValue (Js.abs y) * speed))))
      0 s.
Proof.
  intro H. unfold calculateMovement. cbv zeta.
  rewrite lanes_leave_deadzone by now left.
  apply translationLane_test in H. now rewrite H.
Qed.

Lemma calculateMovement_rotation s x y :
  rotationLane x y -> ~ translationLane x y ->
  calculateMovement s x y = set_vector 0 (if Js.gt x 0 then 90 else -90) s.
Proof.
  intros H Hn. unfold calculateMovement. cbv zeta.
  rewrite lanes_leave_deadzone by now right.
  destruct (Js.gt (Js.abs y) deadzone
            && Js.lt (Js.abs x) (deadzone * (15 # 10))) eqn:E.
  - apply translationLane_test in E. now elim Hn.
  - apply rotationLane_test in H. now rewrite H.
Qed.

End ShaperLanes.

(** In the dead centre and in the two lanes the shaper reads no member of
    [Math]: any two implementations give the same card. *)
Lemma calculateMovement_lanes_any_math (M1 M2 : Math) s x y :
  (Qabs x < deadzone /\ Qabs y < deadzone)
  \/ translationLane x y \/ rotationLane x y ->
  calculateMovement (M := M1) s x y = calculateMovement (M := M2) s x y.
Proof.
  intros [[Hx Hy]|H].
  - unfold calculateMovement, Js.abs. cbv zeta.
    apply lt_spec in Hx, Hy. now rewrite Hx, Hy.
  - unfold calculateMovement. cbv zeta.
    rewrite lanes_leave_deadzone by exact H.
    destruct (Js.gt (Js.abs y) deadzone
              && Js.lt (Js.abs x) (deadzone * (15 # 10))) eqn:E;
      [reflexivity|].
    destruct H as [H|H].
    + apply translationLane_test in H. congruence.
    + apply rotationLane_test in H. now rewrite H.
Qed.

(** C9 as stated fails, in both halves.

    At (x, y) = (0.2, 0.2) both premises hold, 0.2 lying between the
    deadzone 0.15 and 0.225; the translation branch is tested first and
    wins: the angle is 0 but the velocity is 0.05/0.85, not 0, and the angle
    is not +90.

    At (x, y) = (0.2, 0.15) the first premise holds with |y| equal to the
    deadzone; the translation branch asks for |y| > deadzone, so the
    rotation branch is taken and the angle is 90, not 0. *)
Lemma mode_partition_counterexample :
  let s1 := calculateMovement (M := unreadMath) constructor (2 # 10) (2 # 10) in
  let s2 := calculateMovement (M := unreadMath) constructor (2 # 10) (15 # 100) in
  (deadzone <= Qabs (2 # 10) /\ Qabs (2 # 10) < (15 # 10) * deadzone
   /\ _angle s1 = 0 /\ ~ _velocity s1 == 0 /\ ~ _angle s1 == 90)
  /\ (deadzone <= Qabs (15 # 100) /\ Qabs (2 # 10) < (15 # 10) * deadzone
      /\ _angle s2 = 90 /\ ~ _angle s2 == 0).
Proof.
  vm_compute. repeat split; try reflexivity; discriminate.
Qed.

(** C9, amended.  For every normalized input (x, y): if |y| > deadzone and
    |x| < 1.5 deadzone the shaper yields angle 0 (pure translation); if
    |x| > deadzone and |y| < 1.5 deadzone, and the input is not in the
    translation lane just described, it yields velocity 0 and angle +90 when
    x > 0, -90 otherwise (pure rotation). *)
Theorem mode_partition (M : Math) s x y :
  (translationLane x y -> _angle (calculateMovement s x y) = 0)
  /\ (rotationLane x y -> ~ translationLane x y ->
      _velocity (calculateMovement s x y) = 0
      /\ _angle (calculateMovement s x y) = (if Js.gt x 0 then 90 else -90)
      /\ (0 < x -> _angle (calculateMovement s x y) = 90)
      /\ (x <= 0 -> _angle (calculateMovement s x y) = -90)).
Proof.
  split.
  - intro H. now rewrite calculateMovement_translation.
  - intros H Hn. rewrite calculateMovement_rotation by assumption.
    cbn. repeat split.
    + intro Hx. apply gt_spec in Hx. now rewrite Hx.
    + intro Hx. apply gt_false in Hx. now rewrite Hx.
Qed.

Lemma mode_partition_witness :
  _angle (calculateMovement (M := unreadMath) constructor (1 # 10) (1 # 2)) = 0
  /\ _velocity (calculateMovement (M := unreadMath) constructor (1 # 2) (1 # 10))
     = 0
  /\ _angle (calculateMovement (M := unreadMath) constructor (1 # 2) (1 # 10))
     = 90
  /\ _angle (calculateMovement (M := unreadMath) constructor (- (1 # 2)) (1 # 10))
     = -90.
Proof.
  split; [|split; [|split]].
  - destruct (mode_partition unreadMath constructor (1 # 10) (1 # 2))
      as [H _].
    apply H. vm_compute. split; reflexivity.
  - destruct (mode_partition unreadMath constructor (1 # 2) (1 # 10))
      as [_ H].
    apply H.
    + vm_compute. split; reflexivity.
    + vm_compute. intros [H1 _]. discriminate.
  - destruct (mode_partition unreadMath constructor (1 # 2) (1 # 10))
      as [_ H].
    destruct H as (_ & _ & H & _).
    + vm_compute. split; reflexivity.
    + vm_compute. intros [H1 _]. discriminate.
    + apply H. reflexivity.
  - destruct (mode_partition unreadMath constructor (- (1 # 2)) (1 # 10))
      as [_ H].
    destruct H as (_ & _ & _ & H).
    + vm_compute. split; reflexivity.
    + vm_compute. intros [H1 _]. discriminate.
    + apply H. vm_compute. discriminate.
Defined.

(** * Further properties of the card *)

(** ** The vector shaper *)

Lemma normalize_unfold value :
  normalizeAxisValue value == Js.max 0 (value - deadzone) * (100 # 85).
Proof. unfold normalizeAxisValue, deadzone. field. Qed.

(** X1.  [_normalizeAxisValue] rescales what lies beyond the deadzone onto
    [[0, 1]]: it is 0 up to the deadzone, 1 at full deflection, stays within
    [[0, 1]] for a value of at most 1, and never decreases. *)
Theorem normalizeAxisValue_rescales :
  (forall v, v <= deadzone -> normalizeAxisValue v == 0)
  /\ normalizeAxisValue 1 == 1
  /\ (forall v, v <= 1 -> 0 <= normalizeAxisValue v <= 1)
  /\ (forall v1 v2, v1 <= v2 -> normalizeAxisValue v1 <= normalizeAxisValue v2).
Proof.
  split; [|split; [|split]].
  - intros v Hv. rewrite normalize_unfold.
    destruct (max_spec 0 (v - deadzone)) as [[H E]|[H E]]; rewrite E; lra.
  - reflexivity.
  - intros v Hv. rewrite normalize_unfold.
    destruct (max_spec 0 (v - deadzone)) as [[H0 E]|[H0 E]]; rewrite E;
      unfold deadzone in *; lra.
  - intros v1 v2 Hv. rewrite !normalize_unfold.
    destruct (max_spec 0 (v1 - deadzone)) as [[H1 E1]|[H1 E1]]; rewrite E1;
      destruct (max_spec 0 (v2 - deadzone)) as [[H2 E2]|[H2 E2]]; rewrite E2;
      lra.
Qed.

Lemma normalizeAxisValue_rescales_witness :
  normalizeAxisValue (1 # 10) == 0
  /\ 0 <= normalizeAxisValue (1 # 2) <= 1
  /\ normalizeAxisValue (1 # 2) <= normalizeAxisValue (3 # 4).
Proof.
  destruct normalizeAxisValue_rescales as (H1 & _ & H3 & H4).
  split; [|split].
  - apply H1. vm_compute. discriminate.
  - apply H3. vm_compute. discriminate.
  - apply H4. vm_compute. discriminate.
Defined.

Section ShaperRange.

Context {M : Math}.

(** X2.  Whatever the input and whatever [Math.atan2] and [Math.sqrt]
    return, the velocity the shaper leaves in [_velocity] lies in
    [[-1, 1]]. *)
Theorem shaper_velocity_clamped s x y :
  -1 <= _velocity (calculateMovement s x y) <= 1.
Proof.
  unfold calculateMovement. cbv zeta.
  repeat match goal with
         | |- context [if ?c then set_vector _ _ _ else _] => destruct c
         end;
    cbn [_velocity set_vector];
    try (apply clampVelocity_range); lra.
Qed.

(** X3.  If [Math.atan2] returns angles between [-PI] and [PI], the angle
    the shaper leaves in [_angle] lies in [[-180, 180]]. *)
Theorem shaper_angle_range s x y :
  0 < PI -> (forall a b, - PI <= atan2 a b <= PI) ->
  -180 <= _angle (calculateMovement s x y) <= 180.
Proof.
  intros Hpi Hat. unfold calculateMovement. cbv zeta.
  repeat match goal with
         | |- context [if ?c then set_vector _ _ _ else _] => destruct c
         end;
    cbn [_angle set_vector]; try lra.
  - destruct (Js.gt x 0); lra.
  - set (t := atan2 _ _). pose proof (Hat (if Js.lt y 0 then - x else x) y)
      as [L U]. fold t in L, U.
    split.
    + apply Qle_shift_div_l; [exact Hpi|]. lra.
    + apply Qle_shift_div_r; [exact Hpi|]. lra.
Qed.

(** X4.  In the translation lane, for an axis value of at most 1 in
    absolute value, the velocity is the y axis with the deadzone taken off
    and rescaled: (y - 0.15)/0.85 going forward, (y + 0.15)/0.85 going back.
    Its sign is the sign of y and full deflection gives full speed. *)
Theorem translation_velocity s x y :
  translationLane x y -> Qabs y <= 1 ->
  (0 < y ->
   _velocity (calculateMovement s x y) == (y - deadzone) / (1 - deadzone)
   /\ 0 < _velocity (calculateMovement s x y))
  /\ (y < 0 ->
      _velocity (calculateMovement s x y) == (y + deadzone) / (1 - deadzone)
      /\ _velocity (calculateMovement s x y) < 0)
  /\ (y == 1 -> _velocity (calculateMovement s x y) == 1)
  /\ (y == -1 -> _velocity (calculateMovement s x y) == -1).
Proof.
  intros Hl Hy. rewrite calculateMovement_translation by exact Hl.
  cbn [_velocity set_vector]. destruct Hl as [Hd _].
  assert (F : forall q, q / (1 - deadzone) == q * (100 # 85))
    by (intro q; unfold deadzone; field).
  assert (N : normalizeAxisValue (Js.abs y) * speed
              == (Qabs y - deadzone) * (100 # 85)).
  { rewrite normalize_unfold. unfold Js.abs, speed.
    destruct (max_spec 0 (Qabs y - deadzone)) as [[H E]|[H E]]; rewrite E;
      lra. }
  set (n := normalizeAxisValue (Js.abs y) * speed) in *.
  assert (Hn : 0 < n <= 1) by (unfold deadzone in *; lra).
  assert (Pos : 0 < y -> Js.max (-1) (Js.min 1 (if Js.gt y 0 then n else - n))
                         == (y - deadzone) * (100 # 85)).
  { intro H. rewrite (Qabs_pos y) in N by lra.
    apply gt_spec in H. rewrite H.
    destruct (min_spec 1 n) as [[H1 E1]|[H1 E1]]; rewrite E1;
      destruct (max_spec (-1) n) as [[H2 E2]|[H2 E2]];
      destruct (max_spec (-1) 1) as [[H3 E3]|[H3 E3]];
      try rewrite E2; try rewrite E3; lra. }
  assert (Neg : y < 0 -> Js.max (-1) (Js.min 1 (if Js.gt y 0 then n else - n))
                         == (y + deadzone) * (100 # 85)).
  { intro H. rewrite (Qabs_neg y) in N by lra.
    assert (G : Js.gt y 0 = false) by (apply gt_false; lra). rewrite G.
    destruct (min_spec 1 (- n)) as [[H1 E1]|[H1 E1]]; rewrite E1;
      destruct (max_spec (-1) (- n)) as [[H2 E2]|[H2 E2]];
      destruct (max_spec (-1) 1) as [[H3 E3]|[H3 E3]];
      try rewrite E2; try rewrite E3; lra. }
  split; [|split; [|split]].
  - intro H. split.
    + rewrite F. now apply Pos.
    + rewrite (Pos H). unfold deadzone in *.
      rewrite (Qabs_pos y) in Hd by lra. lra.
  - intro H. split.
    + rewrite F. now apply Neg.
    + rewrite (Neg H). unfold deadzone in *.
      rewrite (Qabs_neg y) in Hd by lra. lra.
  - intro H. rewrite Pos by lra. unfold deadzone. lra.
  - intro H. rewrite Neg by lra. unfold deadzone. lra.
Qed.

End ShaperRange.

Lemma shaper_angle_range_witness :
  -180 <= _angle (calculateMovement (M := unreadMath) constructor
                    (9 # 10) (9 # 10)) <= 180.
Proof.
  apply (shaper_angle_range (M := unreadMath)).
  - reflexivity.
  - intros a b. cbn. split; discriminate.
Defined.

Lemma translation_velocity_witness :
  _velocity (calculateMovement (M := unreadMath) constructor 0 (575 # 1000))
  == ((575 # 1000) - deadzone) / (1 - deadzone).
Proof.
  destruct (translation_velocity (M := unreadMath) constructor 0 (575 # 1000))
    as [H _].
  - vm_compute. split; reflexivity.
  - vm_compute. discriminate.
  - apply H. reflexivity.
Defined.

(** ** The dispatcher *)

(** X5.  A not-a-number velocity or angle is rejected before anything is
    compared or sent: no service call, and the card, cache included, is left
    as it was. *)
Theorem nan_rejected s vel ang w :
  vel = Js.NaN \/ ang = Js.NaN -> sendCommand s vel ang w = (s, []).
Proof.
  intros [-> | ->]; unfold sendCommand;
    destruct (hass s); trivial;
    destruct (_isManualControlEnabled s); cbn; trivial.
  now destruct vel.
Qed.

Lemma nan_rejected_witness :
  sendCommand mountedOn Js.NaN (Js.Num 45) (fulfils 1000) = (mountedOn, []).
Proof. apply nan_rejected. left. reflexivity. Defined.

Lemma round_error (x : Q) :
  x - (1 # 2) <= inject_Z (Js.round x) <= x + (1 # 2).
Proof.
  unfold Js.round.
  pose proof (Qfloor_le (x + (1 # 2))) as L.
  pose proof (Qlt_floor (x + (1 # 2))) as U.
  rewrite inject_Z_plus in U. change (inject_Z 1) with 1 in U.
  lra.
Qed.

(** X6.  What goes on the wire stays close to what was asked for.  The
    transmitted angle is a whole number of tenths within 0.05 of the raw
    angle.  The transmitted velocity is within 0.0005 of the clamped raw
    velocity, unless it was filtered to 0, which only happens to a clamped
    velocity below 0.0205 in absolute value. *)
Theorem wire_precision v a :
  (exists k : Z, sentAngle a == inject_Z k / 10)
  /\ Qabs (sentAngle a - a) <= 1 # 20
  /\ (Qabs (sentVelocity v - clampVelocity v) <= 1 # 2000
      \/ (sentVelocity v = 0 /\ Qabs (clampVelocity v) < 205 # 10000)).
Proof.
  split; [|split].
  - exists (Js.round (a * 10)). reflexivity.
  - unfold sentAngle, roundAngle.
    pose proof (round_error (a * 10)) as [L U].
    assert (E : inject_Z (Js.round (a * 10)) / 10 * 10
                == inject_Z (Js.round (a * 10))) by field.
    apply Qabs_Qle_condition. lra.
  - pose proof (round_error (clampVelocity v * 1000)) as [L U].
    assert (E : roundVelocity (clampVelocity v) * 1000
                == inject_Z (Js.round (clampVelocity v * 1000)))
      by (unfold roundVelocity; field).
    destruct (sentVelocity_cases v) as [[H Ev]|[H Ev]]; cbv zeta in H.
    + right. split; [exact Ev|].
      unfold velocityEpsilon in H.
      apply Qabs_Qlt_condition in H. apply Qabs_Qlt_condition. lra.
    + left. rewrite Ev. apply Qabs_Qle_condition. lra.
Qed.

(** X7.  A significant change always goes out at once.  On a ready, enabled
    card with a filled cache, a call whose processed angle differs from the
    cached one by more than 3 degrees, or whose processed velocity differs
    from the cached one by more than 0.02, is transmitted whatever the time
    since the last send. *)
Theorem significant_change_transmits s h v a w la lv :
  hass s = Some h -> _isManualControlEnabled s = true ->
  _lastSent s = {| angle := Some la; velocity := Some lv |} ->
  angleEpsilon < Qabs (sentAngle a - la)
  \/ velocityEpsilon < Qabs (sentVelocity v - lv) ->
  snd (sendCommand s (Js.Num v) (Js.Num a) w)
  = [send_command (sentVelocity v) (sentAngle a)].
Proof.
  intros Hh He Hc Hd.
  apply sendCommand_goes_out with (h := h) (la := la) (lv := lv); trivial.
  - intros (Hv & Hl & Ha & _). destruct Hd as [Hd|Hd]; [lra|].
    assert (Z0 : Qabs (sentVelocity v - lv) == 0).
    { setoid_replace (sentVelocity v - lv) with 0 by lra. reflexivity. }
    rewrite Z0 in Hd. unfold velocityEpsilon in Hd. lra.
  - right. exact Hd.
Qed.

Lemma significant_change_transmits_witness :
  snd (sendCommand
         (fst (sendCommand mountedOn (Js.Num (1 # 2)) (Js.Num 45)
                 (fulfils 1000)))
         (Js.Num (1 # 2)) (Js.Num 50) (fulfils 1001))
  = [send_command (sentVelocity (1 # 2)) (sentAngle 50)].
Proof.
  apply (significant_change_transmits _ hostOn (1 # 2) 50 (fulfils 1001)
           (sentAngle 45) (sentVelocity (1 # 2))).
  - reflexivity.
  - reflexivity.
  - reflexivity.
  - left. vm_compute. reflexivity.
Defined.

(** X8.  An unchanged vector is never sent twice within the resend interval:
    after a call that went out and returned, the same raw vector, whatever
    it is, is dropped for the next 250 ms and the card stays as it is. *)
Theorem same_vector_suppressed s v a w1 w2 :
  snd (sendCommand s (Js.Num v) (Js.Num a) w1) <> [] ->
  callService w1 <> Throws ->
  (now w2 - now w1 < _commandIntervalMs)%Z ->
  sendCommand (fst (sendCommand s (Js.Num v) (Js.Num a) w1))
    (Js.Num v) (Js.Num a) w2
  = (fst (sendCommand s (Js.Num v) (Js.Num a) w1), []).
Proof.
  intros Hs Ht Hw.
  destruct (sendCommand_transmitted s v a w1 Hs Ht) as (Hh & He & E).
  rewrite E. cbn [fst].
  destruct (hass s) as [h|] eqn:Eh; [|now elim Hh].
  apply sendCommand_epsilon_suppressed
    with (h := h) (la := sentAngle a) (lv := sentVelocity v);
    try reflexivity; trivial.
  - apply Qabs_Qle_condition. unfold angleEpsilon. lra.
  - apply Qabs_Qle_condition. unfold velocityEpsilon. lra.
Qed.

Lemma same_vector_suppressed_witness :
  sendCommand
    (fst (sendCommand mountedOn (Js.Num 7) (Js.Num 45) (fulfils 1000)))
    (Js.Num 7) (Js.Num 45) (fulfils 1100)
  = (fst (sendCommand mountedOn (Js.Num 7) (Js.Num 45) (fulfils 1000)), []).
Proof.
  apply (same_vector_suppressed mountedOn 7 45 (fulfils 1000) (fulfils 1100)).
  - vm_compute. discriminate.
  - discriminate.
  - vm_compute. reflexivity.
Defined.

(** With a filled cache, a call that went out passed the zero check and had
    a reason to be sent. *)
Lemma sendCommand_goes_out_inv s h v a w la lv :
  hass s = Some h -> _isManualControlEnabled s = true ->
  _lastSent s = {| angle := Some la; velocity := Some lv |} ->
  snd (sendCommand s (Js.Num v) (Js.Num a) w) <> [] ->
  ~ (sentVelocity v == 0 /\ lv == 0
     /\ Qabs (sentAngle a - la) <= angleEpsilon /\ sentAngle a == 0)
  /\ ((now w - _lastSendTime s >= _commandIntervalMs)%Z
      \/ angleEpsilon < Qabs (sentAngle a - la)
      \/ velocityEpsilon < Qabs (sentVelocity v - lv)).
Proof.
  intros Hh He Hc Hs. split.
  - intros (H1 & H2 & H3 & H4). apply Hs.
    now rewrite (sendCommand_zero_suppressed s h v a w la lv).
  - destruct (Z_lt_ge_dec (now w - _lastSendTime s) _commandIntervalMs)
      as [Ht|Ht]; [|now left].
    destruct (Qlt_le_dec angleEpsilon (Qabs (sentAngle a - la)))
      as [Ha|Ha]; [now right; left|].
    destruct (Qlt_le_dec velocityEpsilon (Qabs (sentVelocity v - lv)))
      as [Hv|Hv]; [now right; right|].
    exfalso. apply Hs.
    now rewrite (sendCommand_epsilon_suppressed s h v a w la lv).
Qed.

(** A cache with an angle but no velocity never holds a call back. *)
Lemma sendCommand_no_cached_velocity s h v a w :
  hass s = Some h -> _isManualControlEnabled s = true ->
  velocity (_lastSent s) = None ->
  snd (sendCommand s (Js.Num v) (Js.Num a) w)
  = [send_command (sentVelocity v) (sentAngle a)].
Proof.
  intros Hh He Hc. unfold sendCommand. rewrite Hh, He, Hc.
  cbv beta iota zeta. cbn [negb Js.is_null Js.opt_eq orb andb].
  rewrite andb_false_r. cbn [andb]. rewrite !orb_true_r. cbn [negb].
  now destruct (callService w).
Qed.

(** X9.  A send that threw is retried by the next call.  The throw leaves
    the card as it was, and the same vector presented at the same or a later
    time goes out again. *)
Theorem thrown_send_is_retried s v a w1 w2 :
  snd (sendCommand s (Js.Num v) (Js.Num a) w1) <> [] ->
  callService w1 = Throws ->
  (now w1 <= now w2)%Z ->
  fst (sendCommand s (Js.Num v) (Js.Num a) w1) = s
  /\ snd (sendCommand (fst (sendCommand s (Js.Num v) (Js.Num a) w1))
            (Js.Num v) (Js.Num a) w2)
     = [send_command (sentVelocity v) (sentAngle a)].
Proof.
  intros Hs Ht Hw.
  pose proof (sendCommand_throws_keeps_card s (Js.Num v) (Js.Num a) w1 Ht)
    as Ek.
  split; [exact Ek|]. rewrite Ek.
  destruct (sendCommand_shape s (Js.Num v) (Js.Num a) w1)
    as [E|(v' & a' & _ & _ & Hh & He & _ & _)].
  - rewrite E in Hs. now elim Hs.
  - destruct (hass s) as [h|] eqn:Eh; [|now elim Hh].
    destruct (angle (_lastSent s)) as [la|] eqn:Ea;
      [|now apply sendCommand_empty_cache with (h := h)].
    destruct (velocity (_lastSent s)) as [lv|] eqn:Ev;
      [|now apply sendCommand_no_cached_velocity with (h := h)].
    assert (Ec : _lastSent s = {| angle := Some la; velocity := Some lv |}).
    { destruct (_lastSent s). simpl in *. congruence. }
    destruct (sendCommand_goes_out_inv s h v a w1 la lv Eh He Ec Hs)
      as [Hz Hr].
    apply sendCommand_goes_out with (h := h) (la := la) (lv := lv); trivial.
    destruct Hr as [Hr|Hr]; [left; lia|right; exact Hr].
Qed.

Lemma thrown_send_is_retried_witness :
  snd (sendCommand
         (fst (sendCommand mountedOn (Js.Num (1 # 2)) (Js.Num 45)
                 (throws 1000)))
         (Js.Num (1 # 2)) (Js.Num 45) (fulfils 1001))
  = [send_command (sentVelocity (1 # 2)) (sentAngle 45)].
Proof.
  destruct (thrown_send_is_retried mountedOn (1 # 2) 45 (throws 1000)
              (fulfils 1001)) as [_ H].
  - vm_compute. discriminate.
  - reflexivity.
  - vm_compute. discriminate.
  - exact H.
Defined.

(** X10.  The dispatcher writes nothing but the cache.  Every other field of
    the card is left as it was, and the cache and the send time either both
    stay, or become the processed vector and the time of the call, the
    latter only when a [send_command] was issued and did not throw. *)
Theorem dispatcher_writes_only_cache s vel ang w :
  let s' := fst (sendCommand s vel ang w) in
  (hass s' = hass s /\ config s' = config s
   /\ _velocity s' = _velocity s /\ _angle s' = _angle s
   /\ _isConnected s' = _isConnected s
   /\ _isManualControlEnabled s' = _isManualControlEnabled s
   /\ _isManualControlStateKnown s' = _isManualControlStateKnown s
   /\ _isTogglingManualControl s' = _isTogglingManualControl s
   /\ _lastWaterUsagePreset s' = _lastWaterUsagePreset s
   /\ _commandInterval s' = _commandInterval s
   /\ _pollingInterval s' = _pollingInterval s
   /\ _debugMode s' = _debugMode s
   /\ _isDragging s' = _isDragging s)
  /\ ((_lastSent s' = _lastSent s /\ _lastSendTime s' = _lastSendTime s)
      \/ (exists v a,
            vel = Js.Num v /\ ang = Js.Num a
            /\ snd (sendCommand s vel ang w)
               = [send_command (sentVelocity v) (sentAngle a)]
            /\ callService w <> Throws
            /\ _lastSent s' = {| angle := Some (sentAngle a);
                                 velocity := Some (sentVelocity v) |}
            /\ _lastSendTime s' = now w)).
Proof.
  destruct (sendCommand_shape s vel ang w)
    as [E|(v & a & Ev & Ea & _ & _ & E1 & E2)]; cbv zeta.
  - rewrite E. cbn [fst]. split; [repeat split|left; split; reflexivity].
  - rewrite E2. destruct (callService w) eqn:Ec.
    + split; [repeat split|left; split; reflexivity].
    + split; [repeat split|].
      right. exists v, a. repeat split; trivial. discriminate.
Qed.

(** ** The cache across all handlers *)

Lemma cacheStep_refl c : cacheStep c c.
Proof. now left. Qed.

Lemma cacheStep_trans c1 c2 c3 :
  cacheStep c1 c2 -> cacheStep c2 c3 -> cacheStep c1 c3.
Proof.
  intros H12 [->|H23]; [exact H12|right; exact H23].
Qed.

Lemma sendCommand_cacheStep s vel ang w :
  cacheStep (_lastSent s) (_lastSent (fst (sendCommand s vel ang w))).
Proof.
  destruct (sendCommand_shape s vel ang w)
    as [E|(v & a & _ & _ & _ & _ & _ & E)]; rewrite E.
  - apply cacheStep_refl.
  - destruct (callService w); [apply cacheStep_refl|].
    right. now exists v, a.
Qed.

Lemma resetJoystick_cacheStep s b w :
  cacheStep (_lastSent s) (_lastSent (fst (resetJoystick s b w))).
Proof.
  unfold resetJoystick. destruct b.
  - eapply cacheStep_trans; [|apply sendCommand_cacheStep].
    destruct (_isDragging s); apply cacheStep_refl.
  - destruct (_isDragging s); apply cacheStep_refl.
Qed.

Lemma clearCommandInterval_cache s :
  _lastSent (clearCommandInterval s) = _lastSent s.
Proof. unfold clearCommandInterval. now destruct (_commandInterval s). Qed.

Lemma handleJoystickEnd_cacheStep s w :
  cacheStep (_lastSent s) (_lastSent (fst (handleJoystickEnd s w))).
Proof.
  unfold handleJoystickEnd. destruct (_isDragging s); cbn [negb];
    [|apply cacheStep_refl].
  eapply cacheStep_trans; [|apply resetJoystick_cacheStep].
  rewrite clearCommandInterval_cache. apply cacheStep_refl.
Qed.

Lemma updated_cacheStep s changedProperties w1 w2 :
  cacheStep (_lastSent s)
    (_lastSent (fst (updated s changedProperties w1 w2))).
Proof.
  unfold updated.
  set (first := if _ && _ then _ else (s, [])).
  assert (H1 : cacheStep (_lastSent s) (_lastSent (fst first))).
  { subst first. destruct (_ && _); [|apply cacheStep_refl].
    eapply cacheStep_trans; [|apply resetJoystick_cacheStep].
    rewrite clearCommandInterval_cache. apply cacheStep_refl. }
  destruct first as [s1 calls1]. cbn [fst] in H1.
  destruct (_isDragging s1); [exact H1|].
  match goal with |- context [if ?c then _ else _] => destruct c end;
    [|exact H1].
  pose proof (resetJoystick_cacheStep s1 true w2) as H2.
  destruct (resetJoystick s1 true w2) as [s2 calls2]. cbn [fst] in *.
  eapply cacheStep_trans; eassumption.
Qed.

Lemma disconnectedCallback_cacheStep s w1 w2 :
  cacheStep (_lastSent s) (_lastSent (fst (disconnectedCallback s w1 w2))).
Proof.
  unfold disconnectedCallback.
  set (s1 := match _pollingInterval _ with Some _ => _ | None => _ end).
  assert (E1 : _lastSent s1 = _lastSent s).
  { subst s1. destruct (_pollingInterval _);
      cbn; now rewrite clearCommandInterval_cache. }
  pose proof (resetJoystick_cacheStep s1 true w1) as H1.
  destruct (resetJoystick s1 true w1) as [s2 calls1]. cbn [fst] in H1.
  pose proof (sendCommand_cacheStep s2 (Js.Num 0) (Js.Num 0) w2) as H2.
  unfold sendStopCommand.
  destruct (sendCommand s2 (Js.Num 0) (Js.Num 0) w2) as [s3 calls2].
  cbn [fst] in *. rewrite <- E1.
  eapply cacheStep_trans; eassumption.
Qed.

Lemma toggleManualControl_cache s r :
  _lastSent (fst (toggleManualControl s r)) = _lastSent s.
Proof.
  unfold toggleManualControl. destruct (hass s); [|reflexivity].
  cbn. destruct (_isManualControlEnabled s); cbn;
    destruct r as [|[|]]; reflexivity.
Qed.

Lemma initializeManualControlState_cache s :
  _lastSent (initializeManualControlState s) = _lastSent s.
Proof.
  unfold initializeManualControlState.
  destruct (ready s); [|reflexivity].
  destruct (findSwitchEntity _); [|reflexivity].
  now destruct (negb _).
Qed.

Lemma pollTick_cache s : _lastSent (pollTick s) = _lastSent s.
Proof.
  unfold pollTick, findAndSetManualControlState.
  destruct (ready s); [|reflexivity].
  destruct (findSwitchEntity _).
  - destruct (negb _); [reflexivity|].
    now destruct (_isTogglingManualControl s).
  - apply initializeManualControlState_cache.
Qed.

Lemma cacheWellFormed_sent v a :
  cacheWellFormed {| angle := Some (sentAngle a);
                     velocity := Some (sentVelocity v) |}.
Proof.
  unfold cacheWellFormed. cbn [angle velocity].
  split; [exists (Js.round (a * 10)); reflexivity|].
  split.
  - destruct (sentVelocity_thousandths v) as (k & _ & E). now exists k.
  - split; [apply sentVelocity_range|apply sentVelocity_zero_or_epsilon].
Qed.

Lemma cacheWellFormed_step c c' :
  cacheWellFormed c -> cacheStep c c' -> cacheWellFormed c'.
Proof.
  intros H [->|(v & a & ->)]; [exact H|apply cacheWellFormed_sent].
Qed.

Section ShaperCache.

Context {M : Math}.

Lemma updateJoystickPosition_cache s area x y :
  _lastSent (updateJoystickPosition s area x y) = _lastSent s.
Proof.
  unfold updateJoystickPosition, calculateMovement. cbv zeta.
  destruct area; cbn [negb]; [|reflexivity].
  repeat match goal with
         | |- context [if ?c then set_vector _ _ _ else _] => destruct c
         end; reflexivity.
Qed.

Lemma handleJoystickStart_cacheStep s area x y w :
  cacheStep (_lastSent s)
    (_lastSent (fst (handleJoystickStart s area x y w))).
Proof.
  unfold handleJoystickStart.
  destruct (_isManualControlEnabled s); cbn [negb]; [|apply cacheStep_refl].
  eapply cacheStep_trans; [|apply sendCommand_cacheStep].
  rewrite updateJoystickPosition_cache. apply cacheStep_refl.
Qed.

(** X11.  The cache keeps its shape through the whole life of a card.  It
    starts empty, and every handler keeps it well formed: either empty, or
    an angle in whole tenths with a velocity in whole thousandths within
    [[-1, 1]] that is 0 or at least 0.02 in absolute value.  In particular
    the angle and the velocity are always both [null] or both numbers. *)
Theorem cache_stays_well_formed s :
  cacheWellFormed (_lastSent constructor)
  /\ (cacheWellFormed (_lastSent s) ->
      (forall vel ang w,
         cacheWellFormed (_lastSent (fst (sendCommand s vel ang w))))
      /\ (forall area x y w,
            cacheWellFormed
              (_lastSent (fst (handleJoystickStart s area x y w))))
      /\ (forall area x y,
            cacheWellFormed (_lastSent (handleJoystickMove s area x y)))
      /\ (forall w, cacheWellFormed (_lastSent (fst (commandTick s w))))
      /\ (forall w, cacheWellFormed (_lastSent (fst (handleJoystickEnd s w))))
      /\ (forall b w,
            cacheWellFormed (_lastSent (fst (resetJoystick s b w))))
      /\ (forall c w1 w2,
            cacheWellFormed (_lastSent (fst (updated s c w1 w2))))
      /\ (forall r,
            cacheWellFormed (_lastSent (fst (toggleManualControl s r))))
      /\ cacheWellFormed (_lastSent (pollTick s))
      /\ cacheWellFormed (_lastSent (connectedCallback s))
      /\ (forall w1 w2,
            cacheWellFormed
              (_lastSent (fst (disconnectedCallback s w1 w2))))).
Proof.
  split; [exact I|]. intro H.
  repeat split; intros.
  - eapply cacheWellFormed_step; [exact H|apply sendCommand_cacheStep].
  - eapply cacheWellFormed_step;
      [exact H|apply handleJoystickStart_cacheStep].
  - unfold handleJoystickMove. destruct (_isDragging s); cbn [negb];
      [|exact H].
    now rewrite updateJoystickPosition_cache.
  - eapply cacheWellFormed_step; [exact H|apply sendCommand_cacheStep].
  - eapply cacheWellFormed_step; [exact H|apply handleJoystickEnd_cacheStep].
  - eapply cacheWellFormed_step; [exact H|apply resetJoystick_cacheStep].
  - eapply cacheWellFormed_step; [exact H|apply updated_cacheStep].
  - now rewrite toggleManualControl_cache.
  - now rewrite pollTick_cache.
  - unfold connectedCallback, startPolling. cbn [_lastSent set_pollingInterval].
    now rewrite initializeManualControlState_cache.
  - eapply cacheWellFormed_step;
      [exact H|apply disconnectedCallback_cacheStep].
Qed.

End ShaperCache.

Lemma cache_stays_well_formed_witness :
  cacheWellFormed
    (_lastSent (fst (sendCommand mountedOn (Js.Num 7) (Js.Num 45)
                       (fulfils 1000)))).
Proof.
  destruct (cache_stays_well_formed (M := unreadMath) mountedOn) as [_ H].
  destruct (H I) as [H1 _]. apply H1.
Defined.

(** ** The joystick surface and the lifecycle hooks *)

Lemma resetJoystick_only_stop s b w c :
  In c (snd (resetJoystick s b w)) -> c = stopCommand.
Proof.
  unfold resetJoystick. destruct b; [|intros []].
  intro H.
  destruct (stop_at_most_once
              (if negb (_isDragging s) then set_vector 0 0 s else s) w)
    as [E|E]; rewrite E in H; [destruct H|].
  destruct H as [<-|[]]. reflexivity.
Qed.

(** X12.  Property updates never disturb a drag in progress: while the card
    is dragging and manual control is enabled, [updated] changes nothing and
    calls nothing, whichever properties changed. *)
Theorem updated_keeps_drag s changedProperties w1 w2 :
  _isDragging s = true -> _isManualControlEnabled s = true ->
  updated s changedProperties w1 w2 = (s, []).
Proof.
  intros Hd He. unfold updated. rewrite He, Hd. cbn [negb andb].
  rewrite andb_false_r. now rewrite Hd.
Qed.

Lemma updated_keeps_drag_witness :
  let s := fst (handleJoystickStart (M := unreadMath) mountedOn true 0
                  (575 # 1000) (fulfils 1000)) in
  updated s [P_velocity; P_angle] (fulfils 1001) (fulfils 1001) = (s, []).
Proof.
  apply updated_keeps_drag; reflexivity.
Defined.

(** X13.  Outside a drag the surface only ever asks for a stop: every
    service call issued by a joystick reset, by a release, by [updated], by
    [_sendStopCommand] and by unmounting is the stop command (0, 0), and the
    delayed reset scheduled at mount issues no call at all. *)
Theorem surface_only_stops s c :
  (forall b w, In c (snd (resetJoystick s b w)) -> c = stopCommand)
  /\ (forall w, In c (snd (handleJoystickEnd s w)) -> c = stopCommand)
  /\ (forall p w1 w2, In c (snd (updated s p w1 w2)) -> c = stopCommand)
  /\ (forall w, In c (snd (sendStopCommand s w)) -> c = stopCommand)
  /\ (forall w1 w2,
        In c (snd (disconnectedCallback s w1 w2)) -> c = stopCommand)
  /\ (forall w, snd (firstUpdated s w) = []).
Proof.
  assert (Stop : forall s' w, In c (snd (sendCommand s' (Js.Num 0) (Js.Num 0) w))
                              -> c = stopCommand).
  { intros s' w H. destruct (stop_at_most_once s' w) as [E|E];
      rewrite E in H; [destruct H|]. destruct H as [<-|[]]. reflexivity. }
  split; [|split; [|split; [|split; [|split]]]].
  - intros b w. apply resetJoystick_only_stop.
  - intros w. unfold handleJoystickEnd.
    destruct (_isDragging s); cbn [negb]; [|intros []].
    apply resetJoystick_only_stop.
  - intros p w1 w2. unfold updated.
    set (first := if _ && _ then _ else (s, [])).
    assert (H1 : In c (snd first) -> c = stopCommand).
    { subst first. destruct (_ && _); [|intros []].
      apply resetJoystick_only_stop. }
    destruct first as [s1 calls1]. cbn [snd] in H1.
    destruct (_isDragging s1); [exact H1|].
    match goal with |- context [if ?b then _ else _] => destruct b end;
      [|exact H1].
    pose proof (resetJoystick_only_stop s1 true w2 c) as H2.
    destruct (resetJoystick s1 true w2) as [s2 calls2]. cbn [snd] in *.
    intro H. apply in_app_or in H. tauto.
  - intros w. apply Stop.
  - intros w1 w2. unfold disconnectedCallback.
    set (s1 := match _pollingInterval _ with Some _ => _ | None => _ end).
    pose proof (resetJoystick_only_stop s1 true w1 c) as H1.
    destruct (resetJoystick s1 true w1) as [s2 calls1].
    pose proof (Stop s2 w2) as H2. unfold sendStopCommand.
    destruct (sendCommand s2 (Js.Num 0) (Js.Num 0) w2) as [s3 calls2].
    cbn [snd] in *. intro H. apply in_app_or in H. tauto.
  - intro w. unfold firstUpdated, resetJoystick. reflexivity.
Qed.

Lemma surface_only_stops_witness :
  send_command 0 (0 # 10) = stopCommand.
Proof.
  destruct (surface_only_stops
              (fst (sendCommand mountedOn (Js.Num (1 # 2)) (Js.Num 0)
                      (fulfils 1000)))
              (send_command 0 (0 # 10))) as (_ & _ & _ & H & _).
  apply (H (fulfils 1001)). left. reflexivity.
Defined.

(** X14.  Unmounting tears the card down: both timers are cleared and the
    card is marked disconnected.  When the first of its two stop attempts
    does not throw, at most one stop command is transmitted, the second
    attempt being dropped once the first has filled the cache. *)
Theorem unmount_tears_down s w1 w2 :
  let r := disconnectedCallback s w1 w2 in
  _commandInterval (fst r) = None
  /\ _pollingInterval (fst r) = None
  /\ _isConnected (fst r) = false
  /\ (callService w1 <> Throws ->
      snd r = [] \/ snd r = [stopCommand]).
Proof.
  unfold disconnectedCallback.
  set (s1 := match _pollingInterval _ with Some _ => _ | None => _ end).
  assert (P1 : _commandInterval s1 = None /\ _pollingInterval s1 = None
               /\ _isConnected s1 = false).
  { subst s1. unfold clearCommandInterval.
    cbn [set_isConnected _commandInterval].
    destruct (_commandInterval s) eqn:Ec; cbn;
      destruct (_pollingInterval s) eqn:Ep; cbn; rewrite ?Ec, ?Ep; auto. }
  unfold resetJoystick, sendStopCommand.
  set (s1' := if negb (_isDragging s1) then set_vector 0 0 s1 else s1).
  assert (P1' : _commandInterval s1' = None /\ _pollingInterval s1' = None
                /\ _isConnected s1' = false).
  { subst s1'. destruct (_isDragging s1); cbn; exact P1. }
  clearbody s1'. clear s1 P1. destruct P1' as (C1 & C2 & C3).
  destruct (dispatcher_writes_only_cache s1' (Js.Num 0) (Js.Num 0) w1)
    as [(_ & _ & _ & _ & F5 & _ & _ & _ & _ & F10 & F11 & _) _].
  pose proof (stop_at_most_once s1' w1) as A1.
  pose proof (sendCommand_transmitted s1' 0 0 w1) as T1.
  destruct (sendCommand s1' (Js.Num 0) (Js.Num 0) w1) as [s2 calls1] eqn:R1.
  cbv zeta in *. cbn [fst snd] in *.
  destruct (dispatcher_writes_only_cache s2 (Js.Num 0) (Js.Num 0) w2)
    as [(_ & _ & _ & _ & G5 & _ & _ & _ & _ & G10 & G11 & _) _].
  pose proof (stop_at_most_once s2 w2) as A2.
  pose proof (stop_dropped s2 w2 (sentAngle 0) (sentVelocity 0)) as D2.
  destruct (sendCommand s2 (Js.Num 0) (Js.Num 0) w2) as [s3 calls2] eqn:R2.
  cbv zeta in *. cbn [fst snd] in *.
  split; [congruence|]. split; [congruence|]. split; [congruence|].
  intro Ht. destruct A1 as [E1|E1]; rewrite E1; cbn [app].
  - exact A2.
  - right. destruct T1 as (_ & _ & T1); [rewrite E1; discriminate|exact Ht|].
    injection T1 as Es _. subst s2.
    assert (E2 : calls2 = []).
    { assert (E : (s3, calls2) = (s3, calls2)) by reflexivity.
      rewrite D2 in E at 1;
        [now injection E|reflexivity|reflexivity|vm_compute; discriminate]. }
    now rewrite E2.
Qed.

Lemma unmount_tears_down_witness :
  let s := fst (sendCommand mountedOn (Js.Num (1 # 2)) (Js.Num 0)
                  (fulfils 1000)) in
  snd (disconnectedCallback s (fulfils 1001) (fulfils 1001)) = []
  \/ snd (disconnectedCallback s (fulfils 1001) (fulfils 1001))
     = [stopCommand].
Proof.
  cbv zeta.
  destruct (unmount_tears_down
              (fst (sendCommand mountedOn (Js.Num (1 # 2)) (Js.Num 0)
                      (fulfils 1000)))
              (fulfils 1001) (fulfils 1001)) as (_ & _ & _ & H).
  apply H. discriminate.
Defined.

Section DragStart.

Context {M : Math}.

(** X15.  A drag only starts while manual control is enabled: a press on a
    disabled card changes nothing and calls nothing.  On an enabled card the
    press marks the card as dragging and sends the first sample at once when
    the cache is empty and a host context is there; that sample is the
    displayed vector as processed by the dispatcher, with a velocity in
    [[-1, 1]]. *)
Theorem drag_start s area x y w :
  (_isManualControlEnabled s = false ->
   handleJoystickStart s area x y w = (s, []))
  /\ (_isManualControlEnabled s = true ->
      let r := handleJoystickStart s area x y w in
      _isDragging (fst r) = true
      /\ (forall h, hass s = Some h -> angle (_lastSent s) = None ->
          snd r = [send_command (sentVelocity (_velocity (fst r)))
                                (sentAngle (_angle (fst r)))]
          /\ -1 <= sentVelocity (_velocity (fst r)) <= 1)).
Proof.
  split.
  - intro He. unfold handleJoystickStart. now rewrite He.
  - intros He r. subst r. unfold handleJoystickStart. rewrite He.
    cbn [negb].
    set (s1 := updateJoystickPosition (set_isDragging true s) area x y).
    assert (P : hass s1 = hass s /\ _isManualControlEnabled s1 = true
                /\ _isDragging s1 = true /\ _lastSent s1 = _lastSent s).
    { subst s1. unfold updateJoystickPosition, calculateMovement. cbv zeta.
      destruct area; cbn [negb]; [|now repeat split].
      repeat match goal with
             | |- context [if ?c then set_vector _ _ _ else _] => destruct c
             end; now repeat split. }
    destruct P as (P1 & P2 & P3 & P4).
    destruct (sendCommand_frame s1 (Js.Num (_velocity s1))
                (Js.Num (_angle s1)) w)
      as (_ & _ & F3 & F4 & _ & _ & _ & F8).
    cbv zeta in *. split; [congruence|].
    intros h Hh Hc. rewrite F3, F4. split.
    + apply sendCommand_empty_cache with (h := h); congruence.
    + apply sentVelocity_range.
Qed.

End DragStart.

Lemma drag_start_witness :
  handleJoystickStart (M := unreadMath) mountedOff true 0 (575 # 1000)
    (fulfils 1000) = (mountedOff, [])
  /\ _isDragging
       (fst (handleJoystickStart (M := unreadMath) mountedOn true 0
               (575 # 1000) (fulfils 1000))) = true.
Proof.
  split.
  - destruct (drag_start (M := unreadMath) mountedOff true 0 (575 # 1000)
                (fulfils 1000)) as [H _].
    apply H. reflexivity.
  - destruct (drag_start (M := unreadMath) mountedOn true 0 (575 # 1000)
                (fulfils 1000)) as [_ H].
    destruct (H eq_refl) as [E _]. exact E.
Defined.

(** ** Discovery of the manual-control switch *)

Lemma prefix_app p s : String.prefix p (p ++ s) = true.
Proof.
  induction p as [|c p IH]; cbn; [now destruct s|].
  destruct (Ascii.ascii_dec c c); [exact IH|congruence].
Qed.

Lemma prefix_inv p s :
  String.prefix p s = true -> exists rest, s = (p ++ rest)%string.
Proof.
  revert s. induction p as [|c p IH]; intros s H.
  - exists s. reflexivity.
  - destruct s as [|d s]; cbn in H; [discriminate|].
    destruct (Ascii.ascii_dec c d) as [->|]; [|discriminate].
    destruct (IH s H) as (rest & ->). now exists rest.
Qed.

Lemma includes_unfold s sub :
  Js.includes s sub
  = if String.prefix sub s then true
    else match s with
         | EmptyString => false
         | String _ rest => Js.includes rest sub
         end.
Proof. destruct s; reflexivity. Qed.

(** [includes] finds exactly the strings that contain [sub]. *)
Lemma includes_spec s sub :
  Js.includes s sub = true
  <-> exists before after, s = (before ++ sub ++ after)%string.
Proof.
  split.
  - induction s as [|c s IH]; rewrite includes_unfold;
      destruct (String.prefix sub _) eqn:E.
    + intros _. apply prefix_inv in E as (rest & E).
      exists EmptyString, rest. exact E.
    + discriminate.
    + intros _. apply prefix_inv in E as (rest & E).
      exists EmptyString, rest. exact E.
    + intro H. destruct (IH H) as (b & a & ->).
      exists (String c b), a. reflexivity.
  - intros (b & a & ->). induction b as [|c b IH].
    + rewrite includes_unfold. cbn [append]. now rewrite prefix_app.
    + rewrite includes_unfold. cbn [append].
      destruct (String.prefix sub _); [reflexivity|exact IH].
Qed.

(** X16.  The naming convention by which the switch is recognised.  An entry
    of [hass.states] is taken for the manual-control switch exactly when its
    id starts with "switch." and either the id contains "_manual_control" or
    "manual_control_", or its friendly name contains "Manual Control". *)
Theorem switch_naming_convention entityId e :
  isManualControlSwitch (entityId, e) = true
  <-> (exists rest, entityId = ("switch." ++ rest)%string)
      /\ ((exists a b, entityId = (a ++ "_manual_control" ++ b)%string)
          \/ (exists a b, entityId = (a ++ "manual_control_" ++ b)%string)
          \/ (exists n a b, friendly_name e = Some n
                            /\ n = (a ++ "Manual Control" ++ b)%string)).
Proof.
  unfold isManualControlSwitch, Js.startsWith.
  rewrite andb_true_iff, !orb_true_iff, !includes_spec. split.
  - intros [Hp Hm]. split; [now apply prefix_inv|].
    destruct Hm as [[Hm|Hm]|Hm]; [now left|now right; left|].
    right. right. destruct (friendly_name e) as [n|]; [|discriminate].
    apply andb_true_iff in Hm as [_ Hm].
    apply includes_spec in Hm as (a & b & Hm). now exists n, a, b.
  - intros [(rest & ->) Hm]. split; [apply prefix_app|].
    destruct Hm as [Hm|[Hm|(n & a & b & -> & ->)]];
      [now left; left|now left; right|].
    right. apply andb_true_iff. split.
    + destruct a; reflexivity.
    + apply includes_spec. now exists a, b.
Qed.

(** X17.  The discovery loop returns the first entry of [hass.states] that
    passes the naming test, and nothing when no entry passes; an entity
    whose id does not start with "switch." is never returned, whatever its
    friendly name. *)
Theorem discovery_finds_first_switch h :
  (forall e, findSwitchEntity h = Some e ->
     exists before entityId after,
       states h = before ++ (entityId, e) :: after
       /\ isManualControlSwitch (entityId, e) = true
       /\ Js.startsWith entityId "switch." = true
       /\ forall entry, In entry before ->
                        isManualControlSwitch entry = false)
  /\ (findSwitchEntity h = None
      <-> forall entry, In entry (states h) ->
                        isManualControlSwitch entry = false).
Proof.
  unfold findSwitchEntity. split.
  - intros e. induction (states h) as [|[id x] l IH]; cbn [find];
      [discriminate|].
    destruct (isManualControlSwitch (id, x)) eqn:E.
    + cbn [option_map snd]. intro H. injection H as <-.
      exists [], id, l. repeat split; trivial.
      * unfold isManualControlSwitch in E.
        now apply andb_true_iff in E as [E _].
      * intros entry [].
    + intro H. destruct (IH H) as (b & id' & a & -> & H1 & H2 & H3).
      exists ((id, x) :: b), id', a. repeat split; trivial.
      intros entry [<-|Hin]; [exact E|now apply H3].
  - split.
    + intros H entry Hin.
      destruct (find isManualControlSwitch (states h)) eqn:E;
        [discriminate|].
      now apply (find_none _ _ E).
    + intro H. destruct (find isManualControlSwitch (states h)) as [p|] eqn:E;
        [|reflexivity].
      apply find_some in E as [Hin Hp]. rewrite (H p Hin) in Hp.
      discriminate.
Qed.

Lemma discovery_finds_first_switch_witness :
  exists before entityId after,
    states hostOn
    = before ++ (entityId, {| state := "on"; friendly_name := None |})
             :: after
    /\ isManualControlSwitch
         (entityId, {| state := "on"; friendly_name := None |}) = true
    /\ Js.startsWith entityId "switch." = true
    /\ forall entry, In entry before ->
                     isManualControlSwitch entry = false.
Proof.
  destruct (discovery_finds_first_switch hostOn) as [H _].
  apply H. reflexivity.
Defined.

(** ** Reconciliation by polling *)

Lemma pollTick_found s h e :
  ready s = Some h -> findSwitchEntity h = Some e ->
  pollTick s
  = if negb (Bool.eqb (_isManualControlEnabled s) (isOn e))
    then set_toggling false (set_manualControl (isOn e) s)
    else if _isTogglingManualControl s then set_toggling false s else s.
Proof.
  intros Hr Hf. unfold pollTick, findAndSetManualControlState.
  now rewrite Hr, Hf.
Qed.

Lemma pollTick_not_found s :
  ready s = None
  \/ (exists h, ready s = Some h /\ findSwitchEntity h = None) ->
  pollTick s = s.
Proof.
  intros [Hr|(h & Hr & Hf)];
    unfold pollTick, findAndSetManualControlState,
      initializeManualControlState; now rewrite Hr, ?Hf.
Qed.

(** X18.  The poll is trusted as ground truth.  On a ready card whose host
    context lists the switch, a poll tick leaves the enabled flag equal to
    the observed switch state and no toggle pending, whatever the card held
    before; it writes no other field but the state-known flag.  A second
    poll against the same host context changes nothing more. *)
Theorem poll_converges s h e :
  ready s = Some h -> findSwitchEntity h = Some e ->
  let s' := pollTick s in
  _isManualControlEnabled s' = isOn e
  /\ _isTogglingManualControl s' = false
  /\ reconcilerState s' = (if isOn e then Enabled else Disabled)
  /\ (hass s' = hass s /\ config s' = config s
      /\ _velocity s' = _velocity s /\ _angle s' = _angle s
      /\ _lastSent s' = _lastSent s /\ _lastSendTime s' = _lastSendTime s
      /\ _commandInterval s' = _commandInterval s
      /\ _pollingInterval s' = _pollingInterval s
      /\ _lastWaterUsagePreset s' = _lastWaterUsagePreset s
      /\ _isConnected s' = _isConnected s /\ _debugMode s' = _debugMode s
      /\ _isDragging s' = _isDragging s)
  /\ pollTick s' = s'.
Proof.
  intros Hr Hf. cbv zeta. rewrite (pollTick_found s h e Hr Hf).
  set (s' := if negb _ then _ else _).
  assert (P : _isManualControlEnabled s' = isOn e
              /\ _isTogglingManualControl s' = false
              /\ ready s' = ready s).
  { subst s'. unfold ready.
    destruct (_isManualControlEnabled s) eqn:Ee, (isOn e) eqn:Eo;
      cbn; rewrite ?Ee;
      destruct (_isTogglingManualControl s) eqn:Et; cbn; auto. }
  destruct P as (P1 & P2 & P3).
  split; [exact P1|]. split; [exact P2|]. split.
  { unfold reconcilerState. now rewrite P2, P1. }
  split.
  { subst s'.
    destruct (negb _); [cbn; repeat split|].
    destruct (_isTogglingManualControl s); cbn; repeat split. }
  rewrite (pollTick_found s' h e) by congruence.
  rewrite P1, P2, Bool.eqb_reflx. reflexivity.
Qed.

Lemma poll_converges_witness :
  reconcilerState
    (pollTick (set_hass (Some hostOn)
                 (fst (toggleManualControl mountedOff (Returns Fulfilled)))))
  = Enabled.
Proof.
  destruct (poll_converges
              (set_hass (Some hostOn)
                 (fst (toggleManualControl mountedOff (Returns Fulfilled))))
              hostOn {| state := "on"; friendly_name := None |}
              eq_refl eq_refl) as (_ & _ & H & _).
  exact H.
Defined.

(** X19.  Without a host context, without a configured entity, or while the
    host context lists no manual-control switch, a poll tick is a no-op: the
    card is returned as it is and the pending flag is not touched. *)
Theorem poll_without_switch_is_noop s :
  hass s = None \/ config s = None
  \/ (exists c, config s = Some c /\ entity c = EmptyString)
  \/ (exists h, hass s = Some h /\ findSwitchEntity h = None) ->
  pollTick s = s.
Proof.
  intro H. apply pollTick_not_found. unfold ready.
  destruct H as [H|[H|[(c & H & Hc)|(h & H & Hf)]]].
  - left. now rewrite H.
  - left. rewrite H. now destruct (hass s).
  - left. rewrite H, Hc. now destruct (hass s).
  - rewrite H. destruct (config s) as [c|]; [|now left].
    destruct (Js.truthy (entity c)); [|now left].
    right. now exists h.
Qed.

Lemma poll_without_switch_is_noop_witness :
  pollTick (fst (toggleManualControl
                   (set_hass (Some {| states := [] |}) mountedOff)
                   (Returns Fulfilled)))
  = fst (toggleManualControl
           (set_hass (Some {| states := [] |}) mountedOff)
           (Returns Fulfilled)).
Proof.
  apply poll_without_switch_is_noop.
  right. right. right. exists {| states := [] |}. split; reflexivity.
Defined.

(** ** Toggle requests *)

(** X20.  A toggle request never writes the enabled flag: that is left to
    the poll.  With a host context it raises the pending flag and issues
    exactly one [set_manual_control_state], asking for the negation of the
    enabled flag; any other call it issues sets the water preset.  When the
    request asks to enable, the water preset is switched off before the
    [set_manual_control_state] call.  When the awaited call throws or
    rejects, nothing is issued after it. *)
Theorem toggle_request s h r :
  hass s = Some h ->
  let t := toggleManualControl s r in
  let desired := negb (_isManualControlEnabled s) in
  _isManualControlEnabled (fst t) = _isManualControlEnabled s
  /\ _isTogglingManualControl (fst t) = true
  /\ (exists before after,
        snd t = before ++ set_manual_control_state desired :: after
        /\ (forall c, In c (before ++ after) ->
                      exists p, c = set_water_usage_preset p)
        /\ (desired = true ->
            before = [set_water_usage_preset "off"]
            /\ _lastWaterUsagePreset (fst t) = Some "off"%string)
        /\ (desired = false -> before = [])
        /\ (r <> Returns Fulfilled -> after = [])).
Proof.
  intro Hh. unfold toggleManualControl, setWaterUsagePreset,
    getWaterUsagePreset. rewrite Hh. cbn.
  destruct (_isManualControlEnabled s) eqn:Ee; cbn; rewrite ?Hh; cbn.
  - destruct r as [|[|]]; cbn.
    + split; [exact Ee|]. split; [reflexivity|].
      exists [], []. repeat split; try discriminate; intros c [].
    + destruct (_lastWaterUsagePreset s) as [p|]; cbn;
        [destruct (Js.truthy p); cbn|]; rewrite ?Hh;
        (split; [exact Ee|]); (split; [reflexivity|]).
      * exists [], [set_water_usage_preset p].
        repeat split; try discriminate.
        -- intros c [<-|[]]. now exists p.
        -- intro H. now elim H.
      * exists [], []. repeat split; try discriminate; intros c [].
      * exists [], []. repeat split; try discriminate; intros c [].
    + split; [exact Ee|]. split; [reflexivity|].
      exists [], []. repeat split; try discriminate; intros c [].
  - destruct r as [|[|]]; cbn; rewrite ?Hh; cbn;
      (split; [exact Ee|]); (split; [reflexivity|]);
      exists [set_water_usage_preset "off"], [];
      repeat split; try discriminate;
      intros c [<-|[]]; now exists "off"%string.
Qed.

Lemma toggle_request_witness :
  _isManualControlEnabled
    (fst (toggleManualControl mountedOff (Returns Rejected)))
  = _isManualControlEnabled mountedOff.
Proof.
  destruct (toggle_request mountedOff hostOff (Returns Rejected) eq_refl)
    as [H _].
  exact H.
Defined.

(** X21.  An enable/disable cycle.  A toggle request on a disabled card,
    followed by a poll that observes the switch on, leaves the card in
    Enabled; the next toggle request, when its call fulfils, asks to disable
    and then restores the water preset saved at enabling, which is always
    "off". *)
Theorem enable_disable_cycle s h h' e r :
  hass s = Some h -> _isManualControlEnabled s = false ->
  let s1 := fst (toggleManualControl s r) in
  let s2 := pollTick (set_hass (Some h') s1) in
  ready (set_hass (Some h') s1) = Some h' ->
  findSwitchEntity h' = Some e -> isOn e = true ->
  snd (toggleManualControl s r)
  = [set_water_usage_preset "off"; set_manual_control_state true]
  /\ reconcilerState s1 = PendingToggle true
  /\ reconcilerState s2 = Enabled
  /\ snd (toggleManualControl s2 (Returns Fulfilled))
     = [set_manual_control_state false; set_water_usage_preset "off"].
Proof.
  intros Hh He s1 s2 Hr Hf Ho.
  assert (E1 : toggleManualControl s r
               = (set_lastWaterUsagePreset (Some "off"%string)
                    (set_toggling true s),
                  [set_water_usage_preset "off";
                   set_manual_control_state true])).
  { unfold toggleManualControl, setWaterUsagePreset, getWaterUsagePreset.
    rewrite Hh. cbn. rewrite He. cbn. rewrite Hh.
    destruct r as [|[|]]; reflexivity. }
  subst s2 s1. rewrite E1 in *. cbn [fst snd] in *.
  split; [reflexivity|]. split.
  { unfold reconcilerState. cbn. now rewrite He. }
  rewrite (pollTick_found _ h' e Hr Hf). rewrite Ho. cbn. rewrite He. cbn.
  split; reflexivity.
Qed.

Lemma enable_disable_cycle_witness :
  snd (toggleManualControl
         (pollTick (set_hass (Some hostOn)
                      (fst (toggleManualControl mountedOff
                              (Returns Fulfilled)))))
         (Returns Fulfilled))
  = [set_manual_control_state false; set_water_usage_preset "off"].
Proof.
  destruct (enable_disable_cycle mountedOff hostOff hostOn
              {| state := "on"; friendly_name := None |}
              (Returns Fulfilled) eq_refl eq_refl eq_refl eq_refl eq_refl)
    as (_ & _ & _ & H).
  exact H.
Defined.

(** ** Mounting and configuration *)

(** X22.  Mounting marks the card connected, starts the 5 s poll and adopts
    the switch state found in the host context, if any, without touching
    the pending flag.  With no toggle pending, a poll tick right after
    mounting finds nothing left to do. *)
Theorem mount_adopts_switch_state s :
  let s' := connectedCallback s in
  _isConnected s' = true
  /\ _pollingInterval s' = Some _pollingIntervalMs
  /\ _isTogglingManualControl s' = _isTogglingManualControl s
  /\ (forall h e, ready s = Some h -> findSwitchEntity h = Some e ->
        _isManualControlEnabled s' = isOn e)
  /\ (ready s = None
      \/ (exists h, ready s = Some h /\ findSwitchEntity h = None) ->
      _isManualControlEnabled s' = _isManualControlEnabled s)
  /\ (_isTogglingManualControl s = false -> pollTick s' = s').
Proof.
  cbv zeta. unfold connectedCallback, startPolling,
    initializeManualControlState.
  assert (Er : ready (set_isConnected true s) = ready s) by reflexivity.
  rewrite Er.
  destruct (ready s) as [h|] eqn:Hr.
  - destruct (findSwitchEntity h) as [e|] eqn:Hf.
    + cbn [_isManualControlEnabled set_isConnected].
      set (s' := set_pollingInterval _ _).
      assert (P : _isManualControlEnabled s' = isOn e
                  /\ _isTogglingManualControl s'
                     = _isTogglingManualControl s
                  /\ ready s' = Some h
                  /\ _isConnected s' = true
                  /\ _pollingInterval s' = Some _pollingIntervalMs).
      { subst s'. unfold ready in *.
        destruct (_isManualControlEnabled s) eqn:Ee, (isOn e) eqn:Eo;
          cbn; rewrite ?Ee; auto. }
      destruct P as (P1 & P2 & P3 & P4 & P5).
      repeat split; trivial.
      * intros h0 e0 H0 H1. congruence.
      * intros [H|(h0 & H0 & H1)]; congruence.
      * intro Ht. rewrite (pollTick_found s' h e P3 Hf).
        rewrite P1, P2, Ht, Bool.eqb_reflx. reflexivity.
    + cbn. repeat split; trivial.
      * intros h0 e0 H0 H1. congruence.
      * intros _. apply pollTick_not_found. right. exists h.
        split; [exact Hr|exact Hf].
  - cbn. repeat split; trivial.
    + intros h0 e0 H0. discriminate.
    + intros _. apply pollTick_not_found. left. exact Hr.
Qed.

Lemma mount_adopts_switch_state_witness :
  _isManualControlEnabled mountedOn = true
  /\ pollTick mountedOn = mountedOn.
Proof.
  destruct (mount_adopts_switch_state
              (set_config (Some cardConfig) false
                 (set_hass (Some hostOn) constructor)))
    as (_ & _ & _ & H1 & _ & H2).
  split.
  - apply (H1 hostOn {| state := "on"; friendly_name := None |});
      reflexivity.
  - apply H2. reflexivity.
Defined.

(** X23.  [setConfig] throws exactly when the configuration names no
    entity, the key being missing or empty.  Otherwise it stores the
    configuration and the debug flag and leaves the rest of the card alone,
    so that the card is ready as soon as it has a host context. *)
Theorem setConfig_requires_entity s e d :
  (setConfig s e d = None <-> e = None \/ e = Some EmptyString)
  /\ (forall s', setConfig s e d = Some s' ->
        exists name,
          e = Some name /\ name <> EmptyString
          /\ config s' = Some {| entity := name; debug_mode := d |}
          /\ _debugMode s' = d
          /\ hass s' = hass s
          /\ _isManualControlEnabled s' = _isManualControlEnabled s
          /\ _lastSent s' = _lastSent s
          /\ ready s' = hass s').
Proof.
  unfold setConfig. split.
  - destruct e as [[|c n]|]; cbn; split; intro H; auto; try discriminate.
    destruct H as [H|H]; discriminate.
  - intros s' H. destruct e as [[|c n]|]; cbn in H; try discriminate.
    injection H as <-. exists (String c n).
    repeat split; try discriminate.
    unfold ready. cbn. now destruct (hass s).
Qed.

Lemma setConfig_requires_entity_witness :
  setConfig constructor (Some EmptyString) false = None
  /\ exists name,
       Some "sensor.robot_battery"%string = Some name
       /\ name <> EmptyString.
Proof.
  destruct (setConfig_requires_entity constructor (Some EmptyString) false)
    as [[_ H1] _].
  destruct (setConfig_requires_entity constructor
              (Some "sensor.robot_battery"%string) false) as [_ H2].
  split.
  - apply H1. right. reflexivity.
  - destruct (H2 _ eq_refl) as (name & E & N & _). now exists name.
Defined.

(** ** A whole drag *)

Section DragSession.

Context {M : Math}.

(** X24.  A straight drag from press to release.  On a ready, enabled card
    with an empty cache, a press in the translation lane whose velocity on
    the wire exceeds 0.02 sends that velocity with angle 0 at once; a resend
    tick less than 250 ms after the press sends nothing; a tick at 250 ms or
    later sends the same command again; the release then sends exactly one
    stop command and leaves the card idle with the displayed vector at
    (0, 0).  The service calls of the press and of the resend must not
    throw. *)
Theorem straight_drag_session s h x y w0 w1 w2 w3 :
  hass s = Some h -> _isManualControlEnabled s = true ->
  angle (_lastSent s) = None ->
  translationLane x y ->
  let r0 := handleJoystickStart s true x y w0 in
  let r1 := commandTick (fst r0) w1 in
  let r2 := commandTick (fst r1) w2 in
  let r3 := handleJoystickEnd (fst r2) w3 in
  let v := sentVelocity (_velocity (fst r0)) in
  velocityEpsilon < Qabs v ->
  callService w0 <> Throws -> callService w2 <> Throws ->
  (now w1 - now w0 < _commandIntervalMs)%Z ->
  (now w2 - now w0 >= _commandIntervalMs)%Z ->
  snd r0 = [send_command v (0 # 10)]
  /\ snd r1 = []
  /\ snd r2 = [send_command v (0 # 10)]
  /\ snd r3 = [stopCommand]
  /\ _isDragging (fst r3) = false
  /\ _commandInterval (fst r3) = None
  /\ _velocity (fst r3) = 0 /\ _angle (fst r3) = 0.
Proof.
  intros Hh He Hc Hl r0 r1 r2 r3 v Hv T0 T2 W1 W2.
  subst r3 r2 r1 v r0. unfold handleJoystickStart in *. rewrite He in *.
  cbn [negb] in *.
  set (s1 := updateJoystickPosition (set_isDragging true s) true x y) in *.
  assert (P : hass s1 = Some h /\ _isManualControlEnabled s1 = true
              /\ _isDragging s1 = true /\ _lastSent s1 = _lastSent s
              /\ _angle s1 = 0).
  { subst s1. unfold updateJoystickPosition. cbn [negb].
    rewrite lanes_leave_deadzone by now left.
    rewrite calculateMovement_translation by exact Hl.
    cbn. auto. }
  destruct P as (P1 & P2 & P3 & P4 & P5).
  set (V := _velocity s1) in *. rewrite P5 in *.
  assert (Hc1 : angle (_lastSent s1) = None) by congruence.
  pose proof (sendCommand_empty_cache s1 h V 0 w0 P1 P2 Hc1) as S0.
  destruct (sendCommand_transmitted s1 V 0 w0) as (_ & _ & E0);
    [rewrite S0; discriminate|exact T0|].
  rewrite E0 in *. cbn [fst snd] in *.
  set (s2 := set_lastSent (sentAngle 0) (sentVelocity V) (now w0) s1) in *.
  assert (F : _velocity s2 = V /\ _angle s2 = 0) by (split; [reflexivity|exact P5]).
  destruct F as [F1 F2]. rewrite F1 in Hv.
  assert (D0 : Qabs (sentAngle 0 - sentAngle 0) <= angleEpsilon).
  { apply Qabs_Qle_condition. unfold angleEpsilon. lra. }
  assert (D1 : Qabs (sentVelocity V - sentVelocity V) <= velocityEpsilon).
  { apply Qabs_Qle_condition. unfold velocityEpsilon. lra. }
  assert (E1 : commandTick s2 w1 = (s2, [])).
  { unfold commandTick. rewrite F1, F2.
    apply sendCommand_epsilon_suppressed
      with (h := h) (la := sentAngle 0) (lv := sentVelocity V);
      try reflexivity; trivial. }
  rewrite E1. cbn [fst snd].
  assert (NZ : ~ sentVelocity V == 0).
  { intro Z. rewrite Z in Hv. unfold velocityEpsilon in Hv. cbn in Hv.
    discriminate. }
  assert (S2 : snd (commandTick s2 w2)
               = [send_command (sentVelocity V) (sentAngle 0)]).
  { unfold commandTick. rewrite F1, F2.
    apply sendCommand_goes_out
      with (h := h) (la := sentAngle 0) (lv := sentVelocity V);
      try reflexivity; trivial.
    - tauto.
    - left. exact W2. }
  assert (E2 : commandTick s2 w2
               = (set_lastSent (sentAngle 0) (sentVelocity V) (now w2) s2,
                  [send_command (sentVelocity V) (sentAngle 0)])).
  { unfold commandTick in *. rewrite F1, F2 in *.
    apply sendCommand_transmitted; [rewrite S2; discriminate|exact T2]. }
  rewrite E2. cbn [fst snd].
  set (s3 := set_lastSent (sentAngle 0) (sentVelocity V) (now w2) s2).
  assert (D3 : _isDragging s3 = true) by exact P3.
  rewrite (handleJoystickEnd_unfold s3 w3 D3).
  destruct (released_card s3) as (R1 & R2 & R3 & R4 & R5 & R6 & R7 & R8).
  set (s4 := set_vector 0 0 (clearCommandInterval (set_isDragging false s3)))
    in *.
  destruct (sendCommand_frame s4 (Js.Num 0) (Js.Num 0) w3)
    as (_ & _ & G3 & G4 & _ & _ & G7 & G8).
  cbv zeta in *.
  split; [reflexivity|]. split; [reflexivity|]. split; [reflexivity|].
  split.
  - apply stop_goes_out.
    + rewrite R1. change (hass s3) with (hass s1). rewrite P1. discriminate.
    + rewrite R2. exact P2.
    + right. right. exists (sentVelocity V). split; [now rewrite R3|exact Hv].
  - repeat split; congruence.
Qed.

End DragSession.

Lemma straight_drag_session_witness :
  let r0 := handleJoystickStart (M := unreadMath) mountedOn true 0
              (575 # 1000) (fulfils 1000) in
  let r1 := commandTick (fst r0) (fulfils 1100) in
  let r2 := commandTick (fst r1) (fulfils 1300) in
  let r3 := handleJoystickEnd (fst r2) (fulfils 1400) in
  let v := sentVelocity (_velocity (fst r0)) in
  snd r0 = [send_command v (0 # 10)]
  /\ snd r1 = []
  /\ snd r2 = [send_command v (0 # 10)]
  /\ snd r3 = [stopCommand]
  /\ _isDragging (fst r3) = false
  /\ _commandInterval (fst r3) = None
  /\ _velocity (fst r3) = 0 /\ _angle (fst r3) = 0.
Proof.
  apply (straight_drag_session (M := unreadMath) mountedOn hostOn 0
           (575 # 1000) (fulfils 1000) (fulfils 1100) (fulfils 1300)
           (fulfils 1400)).
  - reflexivity.
  - reflexivity.
  - reflexivity.
  - vm_compute. split; reflexivity.
  - vm_compute. reflexivity.
  - discriminate.
  - discriminate.
  - vm_compute. reflexivity.
  - vm_compute. discriminate.
Defined.
